(** * Conversational agent runtime of the scientific-analysis agent

    Shallow embedding of the Python sources under [src/src/python]:
    - [agent/graph.py]: the guardrail node, the routing functions and the
      edges wired by [create_agent];
    - [agent/tools/interaction.py]: the [request_user_input] tool;
    - [agent/tools/__init__.py] and [utils/tool_registry.py]: tool
      registration;
    - [viewmodels/chat_viewmodel.py]: the streaming worker
      ([StreamingAgentWorker.run]) and the conversation controller
      ([ChatViewModel]).

    Python values that flow through dictionaries are modelled by [pyval];
    a Python [dict] is an association list kept in insertion order, as
    CPython keeps it.  Text is a Rocq [string]; each character stands for
    one code point of the Python [str], in the range U+0000..U+00FF.  The
    Korean literals of the source (the guardrail's rejection text, the
    tool-activity status) are written here in UTF-8; they are only ever
    compared and concatenated, never measured or read character by
    character. *)

From Stdlib Require Import String Ascii List Bool ZArith Lia Floats.
Import ListNotations.
Open Scope string_scope.
Open Scope list_scope.
#[local] Set Warnings "-register-all".

(** ** Messages (langchain_core.messages) *)

Record ToolCall := mkToolCall {
  tc_id : string;
  tc_name : string
}.

Inductive BaseMessage :=
| HumanMessage (content : string)
| AIMessage (content : string) (tool_calls : list ToolCall)
| SystemMessage (content : string)
| ToolMessage (name : string) (content : string).

(** ** Python values *)

Inductive pyval :=
| PyNone
| PyBool (b : bool)
| PyInt (z : Z)
(** a Python [float]: an IEEE binary64 number *)
| PyFloat (f : PrimFloat.float)
| PyStr (s : string)
(** a Python [list]; it also stands for the tuple of [Interrupt]s under
    [__interrupt__], which behaves as a list for truth and for [[0]] *)
| PyList (l : list pyval)
| PyDict (d : list (string * pyval))
| PyMsg (m : BaseMessage)
(** a [langgraph.types.Interrupt] object: it has a [.value] attribute *)
| PyInterrupt (value : pyval).

Definition dict := list (string * pyval).

(** Python truthiness. *)
Definition truthy (v : pyval) : bool :=
  match v with
  | PyNone => false
  | PyBool b => b
  | PyInt z => negb (Z.eqb z 0)
  | PyFloat f => negb (PrimFloat.eqb f 0%float)
  | PyStr s => negb (String.eqb s "")
  | PyList l => match l with [] => false | _ => true end
  | PyDict d => match d with [] => false | _ => true end
  | PyMsg _ => true
  | PyInterrupt _ => true
  end.

(** [d.get(k, dflt)] *)
Fixpoint dict_get (d : dict) (k : string) (dflt : pyval) : pyval :=
  match d with
  | [] => dflt
  | (k', v) :: d' => if String.eqb k k' then v else dict_get d' k dflt
  end.

(** [d[k] = v]: an existing key keeps its position, a new key goes last. *)
Fixpoint dict_set (d : dict) (k : string) (v : pyval) : dict :=
  match d with
  | [] => [(k, v)]
  | (k', v') :: d' =>
      if String.eqb k k' then (k', v) :: d' else (k', v') :: dict_set d' k v
  end.

(** [d.update(e)] *)
Definition dict_update (d e : dict) : dict :=
  fold_left (fun acc kv => dict_set acc (fst kv) (snd kv)) e d.

(** ** Guardrail node ([agent/graph.py], [create_guardrail_node]) *)

(** Modelled from the spec: [GuardrailDecision], which graph.py imports from
    [agent.models] but which the models.py under src does not define.  The
    spec describes it as a structured decision with an enumerated outcome
    [{allowed, blocked}] plus a reason string. *)
Inductive DecisionKind := Allowed | Blocked.

Record GuardrailDecision := mkDecision {
  decision : DecisionKind;
  reason : string
}.

(** The classifier's fixed instruction text; only its first line is kept
    here, the rest (the ALLOW and BLOCK lists) is read by the model alone. *)
Definition GUARDRAIL_PROMPT : string :=
  "You are a guardrail that classifies user requests.".

(** The fixed Korean rejection text that precedes the reason. *)
Definition REJECTION_TEXT : string :=
  "죄송합니다. 이 요청은 과학 시각화 분석과 관련이 없어 처리할 수 없습니다. VTK 데이터 시각화, 필터 적용, 파이프라인 조작 등에 관해 질문해 주세요.".

Definition newline : string := String (Ascii.ascii_of_nat 10) EmptyString.

Definition rejection_content (r : string) : string :=
  REJECTION_TEXT ++ newline ++ newline ++ "(Reason: " ++ r ++ ")".

Definition is_human (m : BaseMessage) : bool :=
  match m with HumanMessage _ => true | _ => false end.

(** [structured_model] is [model.with_structured_output(GuardrailDecision)]:
    it maps the prompt messages to a decision.  The node returns its patch
    as the Python dict it builds. *)
Definition guardrail_node
    (structured_model : list BaseMessage -> GuardrailDecision)
    (messages : list BaseMessage) : dict :=
  match rev messages with
  | [] => [("blocked", PyBool false)]
  | last_message :: _ =>
      match last_message with
      | HumanMessage c =>
          let d := structured_model
                     [SystemMessage GUARDRAIL_PROMPT;
                      HumanMessage ("User message: " ++ c)] in
          match decision d with
          | Blocked =>
              [("messages", PyList [PyMsg (AIMessage (rejection_content (reason d)) [])]);
               ("blocked", PyBool true)]
          | Allowed => [("blocked", PyBool false)]
          end
      | _ => [("blocked", PyBool false)]
      end
  end.

(** ** Routing ([route_after_guardrail], [should_continue]) and the edges
    wired by [create_agent] *)

(** The graph state: the channels of [AgentState] ([agent/state.py]),
    [messages] (reduced with [add_messages]) and [pipeline_context], which
    has no value until some input or node writes it. *)
Record GraphState := mkGraphState {
  gs_messages : list BaseMessage;
  gs_pipeline_context : option pyval
}.

(** The state dict a node or a routing function receives: one key per
    channel that has a value. *)
Definition state_dict (gs : GraphState) : dict :=
  ("messages", PyList (map PyMsg (gs_messages gs))) ::
  match gs_pipeline_context gs with
  | Some v => [("pipeline_context", v)]
  | None => []
  end.

(** The writes of a node's returned dict: the keys that name a channel of
    [AgentState]; any other key (such as ["blocked"]) has no channel and is
    dropped. *)
Definition channel_writes (update : dict) : dict :=
  filter (fun kv => String.eqb (fst kv) "messages" || String.eqb (fst kv) "pipeline_context")
    update.

(** The messages of a value written to [messages]: a list of messages or a
    single one. *)
Definition msgs_of (v : pyval) : list BaseMessage :=
  match v with
  | PyList l => flat_map (fun x => match x with PyMsg m => [m] | _ => [] end) l
  | PyMsg m => [m]
  | _ => []
  end.

(** One channel write: [add_messages] appends the new messages (the nodes of
    this graph return new messages only, which match no existing id);
    [pipeline_context] keeps the last value written. *)
Definition apply_write (gs : GraphState) (kv : string * pyval) : GraphState :=
  let '(k, v) := kv in
  if String.eqb k "messages" then
    mkGraphState (gs_messages gs ++ msgs_of v) (gs_pipeline_context gs)
  else if String.eqb k "pipeline_context" then mkGraphState (gs_messages gs) (Some v)
  else gs.

(** The state after a node returned [update]. *)
Definition apply_update (gs : GraphState) (update : dict) : GraphState :=
  fold_left apply_write (channel_writes update) gs.

Inductive Route := RAgent | RTools | REnd.

(** Python exceptions are carried as their [str]. *)
Inductive exc (A : Type) :=
| Ok (a : A)
| Raise (msg : string).
Arguments Ok {A} a.
Arguments Raise {A} msg.

(** [state.get("blocked", False)] on the state dict. *)
Definition route_after_guardrail (state : GraphState) : Route :=
  if truthy (dict_get (state_dict state) "blocked" (PyBool false))
  then REnd else RAgent.

Definition has_tool_calls (m : BaseMessage) : bool :=
  match m with
  | AIMessage _ (_ :: _) => true
  | _ => false
  end.

(** [messages[-1]] on an empty list raises [IndexError]. *)
Definition should_continue (state : GraphState) : exc Route :=
  match rev (gs_messages state) with
  | [] => Raise "list index out of range"
  | last_message :: _ => Ok (if has_tool_calls last_message then RTools else REnd)
  end.

Inductive Node := NGuardrail | NAgent | NTools.

Inductive Target := TNode (n : Node) | TEnd.

(** [workflow.set_entry_point("guardrail")] *)
Definition entry_point : Node := NGuardrail.

(** The conditional edges and the plain edge of [create_agent], with the
    path maps [{"agent": "agent", "end": END}] and
    [{"tools": "tools", "end": END}]. *)
Definition next_node (n : Node) (state : GraphState) : exc Target :=
  match n with
  | NGuardrail =>
      match route_after_guardrail state with
      | RAgent => Ok (TNode NAgent)
      | _ => Ok TEnd
      end
  | NAgent =>
      match should_continue state with
      | Ok RTools => Ok (TNode NTools)
      | Ok _ => Ok TEnd
      | Raise e => Raise e
      end
  | NTools => Ok (TNode NAgent)
  end.

(** ** Streaming worker ([StreamingAgentWorker.run]) *)

(** The message half of a [("messages", (message, metadata))] stream item:
    an [AIMessageChunk] (its content and, for each of its
    [tool_call_chunks], the value of [tc.get('name')]) or a whole message. *)
Inductive StreamMessage :=
| ChunkMsg (content : string) (tool_call_chunk_names : list (option string))
| FullMsg (m : BaseMessage).

(** What one step of [self._agent.stream(...)] produces: an
    [("updates", event)] pair, a [("messages", (message, metadata))] pair
    with [metadata.get("langgraph_node", "")], or an exception raised by the
    generator while computing the next item. *)
Inductive StreamItem :=
| UpdatesEvent (event : dict)
| MessagesEvent (message : StreamMessage) (langgraph_node : string)
| StreamError (msg : string).

(** The input dict [run] passes to [self._agent.stream] for a new turn. *)
Definition input_payload (messages : list BaseMessage) : dict :=
  [("messages", PyList (map PyMsg messages)); ("pipeline_context", PyDict []);
   ("blocked", PyBool false); ("waiting_for_input", PyBool false);
   ("input_fields", PyList [])].

(** The Qt signals of the worker, in emission order. *)
Inductive WorkerSignal :=
| SigToken (token : string)
| SigToolActivity (tool_name result : string)
| SigInputRequested (description fields : pyval)
| SigFinished (state : dict)
| SigError (msg : string).

Definition is_terminal (s : WorkerSignal) : bool :=
  match s with
  | SigFinished _ | SigError _ => true
  | _ => false
  end.

Definition CALLING_STATUS : string := "호출 중...".

(** [message.content[:100] if len(message.content) > 100 else message.content] *)
Definition result_preview (content : string) : string :=
  if Nat.ltb 100 (String.length content) then substring 0 100 content else content.

Definition token_if_nonempty (content : string) : list WorkerSignal :=
  if String.eqb content "" then [] else [SigToken content].

(** The body of the loop for a [("messages", ...)] item. *)
Definition handle_message (message : StreamMessage) (node_name : string)
    : list WorkerSignal :=
  match message with
  | ChunkMsg content tccs =>
      if String.eqb node_name "guardrail" then []
      else flat_map (fun n => match n with
                              | Some nm => if String.eqb nm "" then []
                                           else [SigToolActivity nm CALLING_STATUS]
                              | None => []
                              end) tccs
           ++ token_if_nonempty content
  | FullMsg (AIMessage content tcs) =>
      map (fun tc => SigToolActivity (tc_name tc) CALLING_STATUS) tcs
      ++ token_if_nonempty content
  | FullMsg (ToolMessage name content) =>
      [SigToolActivity name (result_preview content)]
  | FullMsg _ => []
  end.

(** [type(v).__name__]; a message is an instance of its concrete class. *)
Definition py_type_name (v : pyval) : string :=
  match v with
  | PyNone => "NoneType" | PyBool _ => "bool" | PyInt _ => "int"
  | PyFloat _ => "float" | PyStr _ => "str" | PyList _ => "list" | PyDict _ => "dict"
  | PyMsg (HumanMessage _) => "HumanMessage"
  | PyMsg (AIMessage _ _) => "AIMessage"
  | PyMsg (SystemMessage _) => "SystemMessage"
  | PyMsg (ToolMessage _ _) => "ToolMessage"
  | PyInterrupt _ => "Interrupt"
  end.

(** [interrupt_value = x.value if hasattr(x, "value") else x], then
    [interrupt_value.get("description", "")] and
    [interrupt_value.get("fields", [])]. *)
Definition interrupt_payload (x : pyval) : exc (pyval * pyval) :=
  let iv := match x with PyInterrupt v => v | v => v end in
  match iv with
  | PyDict d => Ok (dict_get d "description" (PyStr ""), dict_get d "fields" (PyList []))
  | v => Raise ("'" ++ py_type_name v ++ "' object has no attribute 'get'")
  end.

(** [event.get("__interrupt__")[0]], on a truthy value: the first item of
    a list, the first character of a string, [KeyError(0)] (whose [str] is
    ["0"]) for a dict, whose keys are strings here, and [TypeError] for the
    rest. *)
Definition first_item (v : pyval) : exc pyval :=
  match v with
  | PyList (x :: _) => Ok x
  | PyList [] => Raise "list index out of range"
  | PyStr (String ch _) => Ok (PyStr (String ch EmptyString))
  | PyStr EmptyString => Raise "string index out of range"
  | PyDict _ => Raise "0"
  | v => Raise ("'" ++ py_type_name v ++ "' object is not subscriptable")
  end.

Definition initial_state : dict :=
  [("waiting_for_input", PyBool false); ("input_fields", PyList [])].

(** The body of the loop for an [("updates", event)] item; the local
    [state] and [interrupt_handled] are threaded through. *)
Definition handle_updates (event state : dict) (handled : bool)
    : list WorkerSignal * exc (dict * bool) :=
  let intr := dict_get event "__interrupt__" PyNone in
  if truthy intr then
    match first_item intr with
    | Raise e => ([], Raise e)
    | Ok obj =>
        match interrupt_payload obj with
        | Raise e => ([], Raise e)
        | Ok (description, fields) =>
            let st1 := dict_set state "waiting_for_input" (PyBool true) in
            let st2 := dict_set st1 "waiting_for_input" (PyBool true) in
            let st3 := dict_set st2 "input_fields" fields in
            ([SigInputRequested description fields], Ok (dict_update st3 event, true))
        end
    end
  else ([], Ok (dict_update state event, handled)).

(** [self._stop_requested] as read at the [i]-th iteration: [stop()] sets it
    once, before the iteration [k] when [cancel_at = Some k]. *)
Definition stop_requested (cancel_at : option nat) (i : nat) : bool :=
  match cancel_at with
  | Some k => Nat.leb k i
  | None => false
  end.

(** The [for mode, event in self._agent.stream(...)] loop.  The next item is
    requested before the stop flag is tested, so a raising generator raises
    even when the flag is set. *)
Fixpoint worker_loop (cancel_at : option nat) (i : nat) (items : list StreamItem)
    (state : dict) (handled : bool) : list WorkerSignal * exc (dict * bool) :=
  match items with
  | [] => ([], Ok (state, handled))
  | StreamError e :: _ => ([], Raise e)
  | item :: rest =>
      if stop_requested cancel_at i then ([], Ok (state, handled))
      else
        let '(sigs, r) :=
          match item with
          | UpdatesEvent ev => handle_updates ev state handled
          | MessagesEvent m node => (handle_message m node, Ok (state, handled))
          | StreamError e => ([], Raise e)
          end in
        match r with
        | Raise e => (sigs, Raise e)
        | Ok (st', h') =>
            let '(sigs', r') := worker_loop cancel_at (S i) rest st' h' in
            (sigs ++ sigs', r')
        end
  end.

(** The fallback over [self._agent.get_state(self._config).tasks]; each task
    is given by the [.value]s of its [interrupts]. *)
Fixpoint snapshot_fallback (tasks : list (list pyval)) (state : dict)
    : list WorkerSignal * exc dict :=
  match tasks with
  | [] => ([], Ok state)
  | [] :: ts => snapshot_fallback ts state
  | (v :: _) :: _ =>
      match interrupt_payload v with
      | Raise e => ([], Raise e)
      | Ok (description, fields) =>
          let st1 := dict_set state "waiting_for_input" (PyBool true) in
          let st2 := dict_set st1 "input_fields" fields in
          ([SigInputRequested description fields], Ok st2)
      end
  end.

(** [StreamingAgentWorker.run]: the signals it emits, given the items the
    graph stream yields, the snapshot tasks and when [stop()] was called.
    Any exception ends in [self.error.emit(str(e))]. *)
Definition worker_run (cancel_at : option nat) (items : list StreamItem)
    (tasks : list (list pyval)) : list WorkerSignal :=
  let '(sigs, r) := worker_loop cancel_at 0 items initial_state false in
  match r with
  | Raise e => sigs ++ [SigError e]
  | Ok (state, handled) =>
      if handled then sigs ++ [SigFinished state]
      else
        let '(sigs2, r2) := snapshot_fallback tasks state in
        match r2 with
        | Raise e => sigs ++ sigs2 ++ [SigError e]
        | Ok st => sigs ++ sigs2 ++ [SigFinished st]
        end
  end.

(** ** Tool registry ([agent/tools/__init__.py], [utils/tool_registry.py]) *)

(** A registered tool.  Only the name takes part in registration; the
    description and argument schema are carried along unchanged and are not
    modelled. *)
Record Tool := mkTool { tool_name : string }.

(** One pair [(name, member)] of [inspect.getmembers(vm_instance)] (which
    lists members sorted by attribute name): whether the member is a bound
    method, and the [_is_tool] / [_tool_name] attributes that
    [@expose_tool] sets on its function. *)
Record Member := mkMember {
  member_attr : string;
  member_is_method : bool;
  member_is_tool : bool;
  member_tool_name : string
}.

Definition generate_tools (members : list Member) : list Tool :=
  flat_map (fun m =>
              if member_is_method m then
                if member_is_tool m then [mkTool (member_tool_name m)] else []
              else []) members.

(** The static list of [get_all_tools]; a [@tool] function is named after
    the Python function. *)
Definition static_tools : list Tool :=
  map mkTool
    ["apply_slice_filter"; "apply_clip_filter"; "set_color_by";
     "set_representation"; "set_opacity"; "set_visual_property";
     "auto_fit_scalar_range"; "set_scalar_range"; "set_camera_view";
     "set_view_plane"; "reset_camera_view"; "get_filter_params";
     "update_slice_filter_params"; "update_clip_filter_params";
     "request_user_input"].

(** [get_all_tools()]: [pipeline_vm] is [get_pipeline_viewmodel()], given by
    the members [inspect.getmembers] reports for it. *)
Definition get_all_tools (pipeline_vm : option (list Member)) : list Tool :=
  match pipeline_vm with
  | Some vm => static_tools ++ generate_tools vm
  | None => static_tools
  end.

(** Members of a [PipelineViewModel] instance in [inspect.getmembers] order:
    the [@expose_tool] methods of [viewmodels/pipeline_viewmodel.py] and
    some of its plain methods. *)
Definition pipeline_vm_members : list Member :=
  [mkMember "add_source" true false "";
   mkMember "apply_filter" true false "";
   mkMember "auto_fit_scalar_range" true true "auto_fit_scalar_range";
   mkMember "delete_item" true true "delete_item";
   mkMember "get_pipeline_info" true true "get_pipeline_info";
   mkMember "select_item" true true "select_pipeline_item";
   mkMember "set_color_by" true true "set_color_by";
   mkMember "set_opacity" true true "set_opacity";
   mkMember "set_representation" true true "set_representation";
   mkMember "set_scalar_range" true true "set_scalar_range";
   mkMember "set_visibility" true true "set_visibility";
   mkMember "set_visual_property" true true "set_visual_property"].

(** ** The [request_user_input] tool ([agent/tools/interaction.py],
    [agent/models.py]) *)

(** [InputField.type]: [Literal["text", "number", "select", "boolean"]]. *)
Inductive FieldType := FText | FNumber | FSelect | FBoolean.

Definition field_type_str (t : FieldType) : string :=
  match t with
  | FText => "text" | FNumber => "number" | FSelect => "select" | FBoolean => "boolean"
  end.

(** A validated [InputField]: pydantic has checked the types and turned
    [min], [max] and [step] into floats. *)
Record InputField := mkInputField {
  field_name : string;
  field_label : string;
  field_type : FieldType;
  field_default : pyval;
  field_options : option (list string);
  field_min : option PrimFloat.float;
  field_max : option PrimFloat.float;
  field_step : option PrimFloat.float
}.

Definition opt_float (o : option PrimFloat.float) : pyval :=
  match o with Some f => PyFloat f | None => PyNone end.

(** [f.model_dump()]: every field of the model, in declaration order, unset
    optional fields as [None]. *)
Definition input_field_dump (f : InputField) : pyval :=
  PyDict [("name", PyStr (field_name f));
          ("label", PyStr (field_label f));
          ("type", PyStr (field_type_str (field_type f)));
          ("default", field_default f);
          ("options", match field_options f with
                      | Some os => PyList (map PyStr os)
                      | None => PyNone
                      end);
          ("min", opt_float (field_min f));
          ("max", opt_float (field_max f));
          ("step", opt_float (field_step f))].

(** What a call of the tool does: [interrupt(...)] suspends the run with its
    payload when no resume value is pending, and returns the resume value
    when the run is resumed with [Command(resume=values)]. *)
Inductive ToolOutcome :=
| Suspended (payload : pyval)
| Returned (result : string).

(** The body of the tool.  It runs on the arguments as [InputRequest]
    validated them, so [fields] are [InputField] objects, each of which has
    [model_dump].  [py_str] is Python's built-in [str], which the f-string
    [f"{user_input}"] applies to the resume value. *)
Definition request_user_input (py_str : pyval -> string) (description : string)
    (fields : list InputField) (resume : option pyval) : ToolOutcome :=
  let serialized_fields := map input_field_dump fields in
  match resume with
  | None =>
      Suspended (PyDict [("description", PyStr description);
                         ("fields", PyList serialized_fields)])
  | Some user_input =>
      Returned ("User Input Received: " ++ py_str user_input
                ++ ". Proceed with the requested action using these values.")
  end.

(** A call of the tool by the tool node: [@tool(args_schema=InputRequest)]
    first validates the arguments; [parsed] is the outcome of that
    validation, the description and fields, or the [str] of the
    [ValidationError], which is raised before the body runs. *)
Definition run_request_user_input (py_str : pyval -> string)
    (parsed : exc (string * list InputField)) (resume : option pyval) : exc ToolOutcome :=
  match parsed with
  | Raise e => Raise e
  | Ok (description, fields) => Ok (request_user_input py_str description fields resume)
  end.

(** *** Python's [str] and [repr] *)

(** The decimal digits of [n >= 0], [fuel] bounding their number. *)
Fixpoint digits_of (fuel : nat) (n : Z) (acc : string) : string :=
  match fuel with
  | O => acc
  | S f =>
      let acc' := String (Ascii.ascii_of_nat (48 + Z.to_nat (n mod 10))) acc in
      if Z.ltb n 10 then acc' else digits_of f (n / 10) acc'
  end.

(** The decimal text of an integer.  A positive [n] has at most
    [log2 n + 1] digits, which bounds the recursion. *)
Definition Z_to_decimal (z : Z) : string :=
  let n := Z.abs z in
  (if Z.ltb z 0 then "-" else "") ++ digits_of (S (Z.to_nat (Z.log2 n))) n "".

Fixpoint join (sep : string) (l : list string) : string :=
  match l with
  | [] => ""
  | [x] => x
  | x :: l' => x ++ sep ++ join sep l'
  end.

Definition hex_digit (n : nat) : ascii :=
  if Nat.ltb n 10 then Ascii.ascii_of_nat (48 + n) else Ascii.ascii_of_nat (87 + n).

(** One character of a string inside its [repr], with [quote] the quote
    character chosen: the quote and the backslash are escaped, tab, newline
    and carriage return as [\t], [\n], [\r], the other control characters
    and the non-printable characters up to U+00FF ([\x7f]..[\xa0] and the
    soft hyphen [\xad]) as [\xhh]. *)
Definition repr_char (quote : ascii) (ch : ascii) : string :=
  let n := Ascii.nat_of_ascii ch in
  if Ascii.eqb ch quote || Nat.eqb n 92 then String "\" (String ch EmptyString)
  else if Nat.eqb n 9 then "\t"
  else if Nat.eqb n 10 then "\n"
  else if Nat.eqb n 13 then "\r"
  else if Nat.ltb n 32 || (Nat.leb 127 n && Nat.leb n 160) || Nat.eqb n 173 then
    String "\" (String "x" (String (hex_digit (n / 16)) (String (hex_digit (n mod 16)) EmptyString)))
  else String ch EmptyString.

(** [repr] of a [str]: in double quotes when the text holds a single quote
    and no double quote, in single quotes otherwise. *)
Definition repr_str (s : string) : string :=
  let cs := list_ascii_of_string s in
  let dq := Ascii.ascii_of_nat 34 in
  let quote := if existsb (Ascii.eqb "'"%char) cs && negb (existsb (Ascii.eqb dq) cs)
               then dq else "'"%char in
  String quote (String.concat "" (map (repr_char quote) cs) ++ String quote EmptyString).

(** Python's [str] ([as_repr = false]) and [repr] ([as_repr = true]): the
    text of [None], of a [bool], of an [int] (whose [str] raises beyond 4300
    digits), of a [str], and of the lists and dicts made of them; [None]
    where the value is not one of these (a [float], a message, an
    [Interrupt]), whose text is not modelled. *)
Fixpoint py_format (as_repr : bool) (v : pyval) : option string :=
  match v with
  | PyNone => Some "None"
  | PyBool true => Some "True"
  | PyBool false => Some "False"
  | PyInt z =>
      let t := Z_to_decimal z in
      if Nat.leb (String.length t) (if Z.ltb z 0 then 4301 else 4300) then Some t else None
  | PyStr s => Some (if as_repr then repr_str s else s)
  | PyList l =>
      let fix items l :=
        match l with
        | [] => Some []
        | x :: l' =>
            match py_format true x, items l' with
            | Some t, Some ts => Some (t :: ts)
            | _, _ => None
            end
        end in
      option_map (fun ts => ("[" ++ join ", " ts ++ "]")%string) (items l)
  | PyDict d =>
      let fix items d :=
        match d with
        | [] => Some []
        | (k, x) :: d' =>
            match py_format true x, items d' with
            | Some t, Some ts => Some ((repr_str k ++ ": " ++ t)%string :: ts)
            | _, _ => None
            end
        end in
      option_map (fun ts => ("{" ++ join ", " ts ++ "}")%string) (items d)
  | PyFloat _ | PyMsg _ | PyInterrupt _ => None
  end.

(** ** Conversation controller ([ChatViewModel]) *)

Record ChatMessage := mkChatMessage {
  sender : string;
  msg_content : string
}.

Definition to_langchain_message (m : ChatMessage) : option BaseMessage :=
  if String.eqb (sender m) "User" then Some (HumanMessage (msg_content m))
  else if String.eqb (sender m) "Agent" then Some (AIMessage (msg_content m) [])
  else None.

(** The input a worker is created with: the converted history, or
    [Command(resume=values)]. *)
Inductive WorkerInput :=
| InputMessages (messages : list BaseMessage)
| InputResume (values : pyval).

(** [w_id] tells the Python worker objects apart. *)
Record Worker := mkWorker {
  w_id : nat;
  w_input : WorkerInput;
  w_stop_requested : bool
}.

(** The signals of the view model, as the UI receives them. *)
Inductive UiSignal :=
| UiMessageAdded (m : ChatMessage)
| UiStreamingStarted
| UiStreamingToken (text : string)
| UiStreamingFinished
| UiAgentThinking
| UiAgentResponse (text : string)
| UiRenderRequested
| UiToolActivity (tool_name result : string)
| UiInputRequested (description fields : pyval)
| UiConversationCleared.

(** The fields of a [ChatViewModel]; [cv_agent] is [self._agent is not None],
    [cv_worker] is [self._worker] (a running worker whose signals are
    connected to this view model), [cv_emitted] records the signals emitted
    so far, oldest first. *)
Record ChatViewModel := mkChat {
  cv_messages : list ChatMessage;
  cv_agent : bool;
  cv_worker : option Worker;
  cv_current_response : string;
  cv_waiting_for_input : pyval;
  cv_input_fields : pyval;
  cv_stopping_workers : list Worker;
  cv_emitted : list UiSignal;
  cv_workers_created : nat
}.

Definition set_messages (c : ChatViewModel) (v : list ChatMessage) : ChatViewModel :=
  mkChat v (cv_agent c) (cv_worker c) (cv_current_response c)
    (cv_waiting_for_input c) (cv_input_fields c) (cv_stopping_workers c) (cv_emitted c)
    (cv_workers_created c).
Definition set_worker (c : ChatViewModel) (v : option Worker) : ChatViewModel :=
  mkChat (cv_messages c) (cv_agent c) v (cv_current_response c)
    (cv_waiting_for_input c) (cv_input_fields c) (cv_stopping_workers c) (cv_emitted c)
    (cv_workers_created c).
Definition set_current_response (c : ChatViewModel) (v : string) : ChatViewModel :=
  mkChat (cv_messages c) (cv_agent c) (cv_worker c) v
    (cv_waiting_for_input c) (cv_input_fields c) (cv_stopping_workers c) (cv_emitted c)
    (cv_workers_created c).
Definition set_waiting_for_input (c : ChatViewModel) (v : pyval) : ChatViewModel :=
  mkChat (cv_messages c) (cv_agent c) (cv_worker c) (cv_current_response c)
    v (cv_input_fields c) (cv_stopping_workers c) (cv_emitted c)
    (cv_workers_created c).
Definition set_input_fields (c : ChatViewModel) (v : pyval) : ChatViewModel :=
  mkChat (cv_messages c) (cv_agent c) (cv_worker c) (cv_current_response c)
    (cv_waiting_for_input c) v (cv_stopping_workers c) (cv_emitted c)
    (cv_workers_created c).
Definition set_stopping_workers (c : ChatViewModel) (v : list Worker) : ChatViewModel :=
  mkChat (cv_messages c) (cv_agent c) (cv_worker c) (cv_current_response c)
    (cv_waiting_for_input c) (cv_input_fields c) v (cv_emitted c)
    (cv_workers_created c).

(** [signal.emit(...)] *)
Definition emit (s : UiSignal) (c : ChatViewModel) : ChatViewModel :=
  mkChat (cv_messages c) (cv_agent c) (cv_worker c) (cv_current_response c)
    (cv_waiting_for_input c) (cv_input_fields c) (cv_stopping_workers c)
    (cv_emitted c ++ [s]) (cv_workers_created c).

(** [str.isspace] on one character.  A Rocq character stands for one of
    the code points U+0000..U+00FF; among them Python counts as whitespace
    [\t \n \x0b \x0c \r], the separators [\x1c]..[\x1f], the space,
    [\x85] (NEL) and [\xa0] (NO-BREAK SPACE). *)
Definition is_py_space (ch : ascii) : bool :=
  let n := Ascii.nat_of_ascii ch in
  (Nat.leb 9 n && Nat.leb n 13) || (Nat.leb 28 n && Nat.leb n 32) ||
  Nat.eqb n 133 || Nat.eqb n 160.

(** [not content.strip()]: the text is empty or all whitespace. *)
Definition is_blank (s : string) : bool :=
  forallb is_py_space (list_ascii_of_string s).

Definition get_langchain_messages (c : ChatViewModel) : list BaseMessage :=
  flat_map (fun m => match to_langchain_message m with
                     | Some lc => [lc]
                     | None => []
                     end) (cv_messages c).

Definition add_agent_response (response : string) (c : ChatViewModel) : ChatViewModel :=
  let msg := mkChatMessage "Agent" response in
  let c1 := set_messages c (cv_messages c ++ [msg]) in
  emit (UiAgentResponse response) (emit (UiMessageAdded msg) c1).

(** [self._worker = StreamingAgentWorker(...)], its signals connected, then
    [self._worker.start()]. *)
Definition start_worker (input : WorkerInput) (c : ChatViewModel) : ChatViewModel :=
  mkChat (cv_messages c) (cv_agent c)
    (Some (mkWorker (cv_workers_created c) input false)) (cv_current_response c)
    (cv_waiting_for_input c) (cv_input_fields c) (cv_stopping_workers c)
    (cv_emitted c) (S (cv_workers_created c)).

Definition process_with_agent (c : ChatViewModel) : ChatViewModel :=
  let c1 := emit UiAgentThinking c in
  if negb (cv_agent c1) then
    add_agent_response "Agent not available. Please configure OPENAI_API_KEY." c1
  else
    let c2 := emit UiStreamingStarted (set_current_response c1 "") in
    let lc_messages := get_langchain_messages c2 in
    let c3 := set_waiting_for_input (set_waiting_for_input c2 (PyBool false)) (PyBool false) in
    start_worker (InputMessages lc_messages) c3.

Definition send_user_message (content : string) (c : ChatViewModel) : ChatViewModel :=
  if is_blank content then c
  else
    let msg := mkChatMessage "User" content in
    let c1 := emit (UiMessageAdded msg) (set_messages c (cv_messages c ++ [msg])) in
    process_with_agent c1.

Definition submit_user_input (values : pyval) (c : ChatViewModel) : ChatViewModel :=
  if negb (cv_agent c) then c
  else
    let c1 := set_waiting_for_input (emit UiAgentThinking c) (PyBool false) in
    let c2 := emit UiStreamingStarted c1 in
    start_worker (InputResume values) c2.

Definition on_token_received (token : string) (c : ChatViewModel) : ChatViewModel :=
  let c1 := set_current_response c (cv_current_response c ++ token) in
  emit (UiStreamingToken (cv_current_response c1)) c1.

(** [self._cleanup_worker()]: [deleteLater] and [self._worker = None]. *)
Definition cleanup_worker (c : ChatViewModel) : ChatViewModel :=
  match cv_worker c with
  | Some _ => set_worker c None
  | None => c
  end.

(** [self._messages.pop()] *)
Definition pop_last {A} (l : list A) : list A := removelast l.

Definition last_is_user (l : list ChatMessage) : bool :=
  match rev l with
  | m :: _ => String.eqb (sender m) "User"
  | [] => false
  end.

Definition on_streaming_finished (state : dict) (c : ChatViewModel) : ChatViewModel :=
  let is_blocked := truthy (dict_get state "blocked" (PyBool false)) in
  let c1 :=
    if String.eqb (cv_current_response c) "" then c
    else
      let c0 :=
        if is_blocked then
          if last_is_user (cv_messages c) then set_messages c (pop_last (cv_messages c))
          else c
        else set_messages c (cv_messages c ++ [mkChatMessage "Agent" (cv_current_response c)]) in
      emit (UiAgentResponse (cv_current_response c0)) c0 in
  let c2 := set_waiting_for_input c1 (dict_get state "waiting_for_input" (PyBool false)) in
  let c3 := set_input_fields c2 (dict_get state "input_fields" (PyList [])) in
  cleanup_worker (emit UiRenderRequested (emit UiStreamingFinished c3)).

Definition on_agent_error (error : string) (c : ChatViewModel) : ChatViewModel :=
  cleanup_worker (emit UiStreamingFinished (add_agent_response ("Error: " ++ error) c)).

(** A signal of the current worker reaching its connected slot. *)
Definition deliver (s : WorkerSignal) (c : ChatViewModel) : ChatViewModel :=
  match s with
  | SigToken t => on_token_received t c
  | SigToolActivity n r => emit (UiToolActivity n r) c
  | SigInputRequested d f => emit (UiInputRequested d f) c
  | SigFinished st => on_streaming_finished st c
  | SigError e => on_agent_error e c
  end.

Definition deliver_all (sigs : list WorkerSignal) (c : ChatViewModel) : ChatViewModel :=
  fold_left (fun acc s => deliver s acc) sigs c.

(** [stop_generation]: the worker's flag is set, its signals are
    disconnected from this view model, the partial response is kept, and the
    worker is parked in [_stopping_workers]. *)
Definition stop_generation (c : ChatViewModel) : ChatViewModel :=
  match cv_worker c with
  | None => c
  | Some w =>
      let worker := mkWorker (w_id w) (w_input w) true in
      let c1 :=
        if String.eqb (cv_current_response c) "" then c
        else
          let c0 := set_messages c (cv_messages c ++ [mkChatMessage "Agent" (cv_current_response c)]) in
          set_current_response (emit (UiAgentResponse (cv_current_response c)) c0) "" in
      let c2 := emit UiStreamingFinished c1 in
      let c3 := set_stopping_workers c2 (cv_stopping_workers c2 ++ [worker]) in
      set_worker c3 None
  end.

(** The argument [finalize_cleanup(w=worker)] is called with.  It is
    connected to [finished], a [Signal(dict)], so the emitted state dict is
    passed as [w] and the default [worker] is not used. *)
Inductive CleanupArg :=
| ArgWorker (w : Worker)
| ArgState (st : dict).

(** [list.remove]: the first element equal to [x] is dropped. *)
Fixpoint remove_first (x : Worker) (l : list Worker) : list Worker :=
  match l with
  | [] => []
  | y :: l' => if Nat.eqb (w_id y) (w_id x) then l' else y :: remove_first x l'
  end.

(** [finalize_cleanup]: [w in self._stopping_workers] compares [w] with the
    parked workers; a dict is equal to no worker. *)
Definition finalize_cleanup (w : CleanupArg) (c : ChatViewModel) : ChatViewModel :=
  match w with
  | ArgWorker w =>
      if existsb (fun w' => Nat.eqb (w_id w') (w_id w)) (cv_stopping_workers c)
      then set_stopping_workers c (remove_first w (cv_stopping_workers c))
      else c
  | ArgState _ => c
  end.

(** A signal of a stopped worker: only [finished] is still connected, to
    [deleteLater] and to [finalize_cleanup], which receives the state. *)
Definition deliver_stopped (w : Worker) (s : WorkerSignal) (c : ChatViewModel) : ChatViewModel :=
  match s with
  | SigFinished st => finalize_cleanup (ArgState st) c
  | _ => c
  end.

(** ** Agent node ([agent/graph.py], [create_agent_node]) *)

(** The fixed preamble; only its first line is kept here, the rest is read by
    the model alone. *)
Definition SYSTEM_PROMPT : string :=
  "You are SA-Agent, a scientific analysis assistant for VTK visualization.".

(** [message.type] *)
Definition message_type (m : BaseMessage) : string :=
  match m with
  | HumanMessage _ => "human"
  | AIMessage _ _ => "ai"
  | SystemMessage _ => "system"
  | ToolMessage _ _ => "tool"
  end.

(** The list [agent_node] passes to [model_with_tools.invoke]:
    [if not messages or messages[0].type != "system"] the preamble is put in
    front. *)
Definition agent_node_input (messages : list BaseMessage) : list BaseMessage :=
  match messages with
  | m :: _ =>
      if String.eqb (message_type m) "system" then messages
      else SystemMessage SYSTEM_PROMPT :: messages
  | [] => [SystemMessage SYSTEM_PROMPT]
  end.

Definition agent_node (model_with_tools : list BaseMessage -> BaseMessage)
    (messages : list BaseMessage) : dict :=
  [("messages", PyList [PyMsg (model_with_tools (agent_node_input messages))])].

(** ** The rest of [ChatViewModel] *)

Definition add_system_message (content : string) (c : ChatViewModel) : ChatViewModel :=
  let msg := mkChatMessage "System" content in
  emit (UiMessageAdded msg) (set_messages c (cv_messages c ++ [msg])).

Definition initialize_with_engine_message (message : string) (c : ChatViewModel)
    : ChatViewModel :=
  add_system_message message c.

(** [self._messages.clear()] *)
Definition clear_history (c : ChatViewModel) : ChatViewModel := set_messages c [].

Definition start_new_conversation (c : ChatViewModel) : ChatViewModel :=
  emit UiConversationCleared (clear_history c).

(** * Properties *)

(** ** Helper lemmas *)

Lemma rev_app_single {A} (pre : list A) (m : A) : rev (pre ++ [m]) = m :: rev pre.
Proof. rewrite rev_app_distr. reflexivity. Qed.

Lemma string_append_assoc (a b c : string) :
  ((a ++ b) ++ c)%string = (a ++ (b ++ c))%string.
Proof. induction a as [|x a IH]; simpl; [reflexivity|]. rewrite IH. reflexivity. Qed.

Lemma string_length_append (a b : string) :
  String.length (a ++ b) = String.length a + String.length b.
Proof. induction a as [|x a IH]; simpl; [reflexivity|]. rewrite IH. reflexivity. Qed.

Lemma substring_length_le (n m : nat) (s : string) :
  String.length (substring n m s) <= m.
Proof.
  revert n m. induction s as [|a s IH]; intros n m; simpl.
  - destruct n, m; simpl; lia.
  - destruct n as [|n].
    + destruct m as [|m]; simpl; [lia|]. specialize (IH 0 m). lia.
    + apply IH.
Qed.

(** ** C5: routing of the workflow graph *)

(** The state dict has no ["blocked"] key, whatever the state. *)
Lemma route_after_guardrail_agent (gs : GraphState) :
  route_after_guardrail gs = RAgent.
Proof.
  unfold route_after_guardrail, state_dict.
  destruct (gs_pipeline_context gs); reflexivity.
Qed.

(** A structured model that blocks every request. *)
Definition blocking_model (_ : list BaseMessage) : GuardrailDecision :=
  mkDecision Blocked "off-topic".

(** C5: the guardrail edge misses its rule.  The guardrail node returns
    [blocked=True] on a blocked request, but [AgentState] has no [blocked]
    channel, so the key is dropped and [route_after_guardrail] never sees
    it: on every state it routes to the agent, also right after a block.
    The other two rules hold: after the agent the run goes to the tools
    exactly when the latest message carries a tool call and ends otherwise;
    after the tools it goes back to the agent. *)
Theorem guardrail_block_still_routes_to_agent :
  forall (structured_model : list BaseMessage -> GuardrailDecision)
         (ms : list BaseMessage) (pc : option pyval) (content : string),
    decision (structured_model [SystemMessage GUARDRAIL_PROMPT;
                                HumanMessage ("User message: " ++ content)]) = Blocked ->
    let gs := mkGraphState (ms ++ [HumanMessage content]) pc in
    let update := guardrail_node structured_model (gs_messages gs) in
    dict_get update "blocked" (PyBool false) = PyBool true /\
    next_node NGuardrail (apply_update gs update) = Ok (TNode NAgent) /\
    (forall gs', next_node NGuardrail gs' = Ok (TNode NAgent)) /\
    (forall (ms' : list BaseMessage) (m : BaseMessage) (pc' : option pyval),
       (next_node NAgent (mkGraphState (ms' ++ [m]) pc') = Ok (TNode NTools) /\
        exists c tc tcs, m = AIMessage c (tc :: tcs)) \/
       (next_node NAgent (mkGraphState (ms' ++ [m]) pc') = Ok TEnd /\
        forall c tcs, m = AIMessage c tcs -> tcs = [])) /\
    (forall gs', next_node NTools gs' = Ok (TNode NAgent)).
Proof.
  intros sm ms pc content Hd gs update.
  assert (Hg : forall gs', next_node NGuardrail gs' = Ok (TNode NAgent)).
  { intros gs'. simpl. rewrite route_after_guardrail_agent. reflexivity. }
  split.
  { subst update gs. simpl. unfold guardrail_node. rewrite rev_app_single, Hd. reflexivity. }
  split; [apply Hg|]. split; [exact Hg|]. split; [|reflexivity].
  intros ms' m pc'.
  unfold next_node, should_continue. simpl. rewrite rev_app_single.
  destruct m as [c|c [|tc tcs]|c|n c]; simpl.
  - right. split; [reflexivity|]. intros ? ? H; discriminate H.
  - right. split; [reflexivity|]. intros ? ? H; injection H; auto.
  - left. split; [reflexivity|]. eauto.
  - right. split; [reflexivity|]. intros ? ? H; discriminate H.
  - right. split; [reflexivity|]. intros ? ? H; discriminate H.
Qed.

Lemma guardrail_block_still_routes_to_agent_witness :
  decision (blocking_model [SystemMessage GUARDRAIL_PROMPT;
                            HumanMessage ("User message: " ++ "tell me a joke")]) = Blocked /\
  next_node NGuardrail
    (apply_update (mkGraphState ([] ++ [HumanMessage "tell me a joke"]) (Some (PyDict [])))
       (guardrail_node blocking_model ([] ++ [HumanMessage "tell me a joke"])))
  = Ok (TNode NAgent).
Proof.
  split; [reflexivity|].
  exact (proj1 (proj2 (guardrail_block_still_routes_to_agent blocking_model []
                         (Some (PyDict [])) "tell me a joke" eq_refl))).
Defined.

(** ** C6: the guardrail node *)

(** C6: with no message, or a last message that is not a User message, the
    node returns [blocked=false] and no message; otherwise it classifies the
    last message's text with the structured model; on [allowed] it returns
    [blocked=false] and no message, on [blocked] exactly one Agent message
    whose text embeds the decision's reason, with [blocked=true]. *)
Theorem guardrail_node_contract :
  forall (structured_model : list BaseMessage -> GuardrailDecision)
         (pre : list BaseMessage),
    guardrail_node structured_model [] = [("blocked", PyBool false)] /\
    (forall m, is_human m = false ->
       guardrail_node structured_model (pre ++ [m]) = [("blocked", PyBool false)]) /\
    (forall c,
       let d := structured_model [SystemMessage GUARDRAIL_PROMPT;
                                  HumanMessage ("User message: " ++ c)] in
       (decision d = Allowed ->
          guardrail_node structured_model (pre ++ [HumanMessage c])
          = [("blocked", PyBool false)]) /\
       (decision d = Blocked ->
          exists text,
            guardrail_node structured_model (pre ++ [HumanMessage c])
            = [("messages", PyList [PyMsg (AIMessage text [])]); ("blocked", PyBool true)] /\
            exists p q, text = (p ++ reason d ++ q)%string)).
Proof.
  intros sm pre.
  split; [reflexivity|].
  split.
  { intros m Hm. unfold guardrail_node. rewrite rev_app_single.
    destruct m; simpl in Hm; try discriminate; reflexivity. }
  intros c d. unfold guardrail_node. rewrite rev_app_single. fold d.
  split; intros Hd; rewrite Hd; [reflexivity|].
  eexists. split; [reflexivity|].
  exists (REJECTION_TEXT ++ newline ++ newline ++ "(Reason: ")%string, ")".
  unfold rejection_content. rewrite !string_append_assoc. reflexivity.
Qed.

(** ** Loop decomposition *)

Lemma stop_requested_mono (cancel_at : option nat) (i j : nat) :
  i <= j -> stop_requested cancel_at j = false -> stop_requested cancel_at i = false.
Proof.
  destruct cancel_at as [k|]; simpl; [|auto].
  intros Hij Hj. apply Nat.leb_gt in Hj. apply Nat.leb_gt. lia.
Qed.

(** Running the loop over [pre ++ l] is running it over [pre], then over
    [l] from where [pre] left off, as long as the stop flag is not yet set
    once [pre] is consumed. *)
Lemma worker_loop_app (cancel_at : option nat) (pre l : list StreamItem) :
  forall i st h,
    stop_requested cancel_at (i + length pre) = false ->
    worker_loop cancel_at i (pre ++ l) st h =
    match worker_loop cancel_at i pre st h with
    | (s1, Ok (st', h')) =>
        let '(s2, r2) := worker_loop cancel_at (i + length pre) l st' h' in
        (s1 ++ s2, r2)
    | (s1, Raise e) => (s1, Raise e)
    end.
Proof.
  induction pre as [|item pre IH]; intros i st h Hstop.
  - simpl. rewrite Nat.add_0_r.
    destruct (worker_loop cancel_at i l st h); reflexivity.
  - assert (Hi : stop_requested cancel_at i = false).
    { apply (stop_requested_mono _ _ (i + length (item :: pre))); [lia | exact Hstop]. }
    assert (Hs : stop_requested cancel_at (S i + length pre) = false).
    { replace (S i + length pre) with (i + length (item :: pre)) by (simpl; lia). exact Hstop. }
    replace (i + length (item :: pre)) with (S i + length pre) by (simpl; lia).
    destruct item as [ev|m node|e]; simpl; try reflexivity; rewrite Hi.
    + destruct (handle_updates ev st h) as [sigs [[st1 h1]|e]]; [|reflexivity].
      rewrite (IH (S i) st1 h1 Hs).
      destruct (worker_loop cancel_at (S i) pre st1 h1) as [s1 [[st2 h2]|e]].
      * simpl. destruct (worker_loop cancel_at (S (i + length pre)) l st2 h2) as [s2 r2].
        rewrite app_assoc. reflexivity.
      * reflexivity.
    + rewrite (IH (S i) st h Hs).
      destruct (worker_loop cancel_at (S i) pre st h) as [s1 [[st2 h2]|e]].
      * simpl. destruct (worker_loop cancel_at (S (i + length pre)) l st2 h2) as [s2 r2].
        rewrite app_assoc. reflexivity.
      * reflexivity.
Qed.

(** ** C9: blank input *)

(** C9: for a text that is empty or made only of whitespace (the
    characters [str.strip] removes, [is_py_space]), [send_user_message]
    leaves the view model as it was: no message appended, no
    [message_added] emitted, no worker started. *)
Theorem send_blank_is_noop :
  forall (content : string) (c : ChatViewModel),
    is_blank content = true ->
    send_user_message content c = c /\
    cv_messages (send_user_message content c) = cv_messages c /\
    cv_emitted (send_user_message content c) = cv_emitted c /\
    cv_worker (send_user_message content c) = cv_worker c.
Proof.
  intros content c H. unfold send_user_message. rewrite H. auto.
Qed.

Definition idle_chat : ChatViewModel :=
  mkChat [] true None "" (PyBool false) (PyList []) [] [] 0.

(** A space, a tab and a no-break space. *)
Definition blank_text : string :=
  String " " (String (Ascii.ascii_of_nat 9) (String (Ascii.ascii_of_nat 160) EmptyString)).

Lemma send_blank_is_noop_witness :
  is_blank blank_text = true /\ send_user_message blank_text idle_chat = idle_chat.
Proof.
  split; [reflexivity|].
  exact (proj1 (send_blank_is_noop blank_text idle_chat eq_refl)).
Defined.

(** ** C10: tool result previews *)

(** C10: when the stream yields a tool result message and the loop reaches
    it (no exception before it, stop flag not set), the next signal the
    worker emits is the tool-activity event for that tool, whose preview is
    the whole content when it has at most 100 characters and its first 100
    characters otherwise; the preview never exceeds 100 characters. *)
Theorem tool_result_preview :
  forall (cancel_at : option nat) (pre post : list StreamItem)
         (name content node : string) (sigs : list WorkerSignal)
         (st : dict) (h : bool),
    worker_loop cancel_at 0 pre initial_state false = (sigs, Ok (st, h)) ->
    stop_requested cancel_at (length pre) = false ->
    exists rest,
      fst (worker_loop cancel_at 0
             (pre ++ MessagesEvent (FullMsg (ToolMessage name content)) node :: post)
             initial_state false)
      = sigs ++ SigToolActivity name (result_preview content) :: rest /\
      (String.length content <= 100 -> result_preview content = content) /\
      (100 < String.length content -> result_preview content = substring 0 100 content) /\
      String.length (result_preview content) <= 100.
Proof.
  intros cancel_at pre post name content node sigs st h Hpre Hstop.
  rewrite (worker_loop_app cancel_at pre _ 0 initial_state false Hstop), Hpre.
  simpl. rewrite Hstop.
  destruct (worker_loop cancel_at (S (length pre)) post st h) as [s2 r2] eqn:E.
  exists s2. simpl.
  split; [reflexivity|].
  unfold result_preview.
  split; [|split].
  - intros Hle. destruct (Nat.ltb_spec 100 (String.length content)); [lia|reflexivity].
  - intros Hlt. destruct (Nat.ltb_spec 100 (String.length content)); [reflexivity|lia].
  - destruct (Nat.ltb_spec 100 (String.length content)).
    + apply substring_length_le.
    + lia.
Qed.

Lemma tool_result_preview_witness :
  exists rest,
    fst (worker_loop None 0
           ([] ++ MessagesEvent (FullMsg (ToolMessage "get_pipeline_info" "ok")) "tools" :: [])
           initial_state false)
    = [] ++ SigToolActivity "get_pipeline_info" (result_preview "ok") :: rest.
Proof.
  destruct (tool_result_preview None [] [] "get_pipeline_info" "ok" "tools" [] initial_state false
              eq_refl eq_refl) as [rest [H _]].
  exists rest. exact H.
Defined.

(** ** C7: resuming a thread that is not waiting for input *)

(** C7, counterexample: an idle view model, with an agent and no pending
    input, still starts a worker driving a turn with the resume command. *)
Lemma resume_without_pending_input_starts_turn :
  cv_waiting_for_input idle_chat = PyBool false /\
  cv_worker idle_chat = None /\
  cv_worker (submit_user_input (PyDict [("normal_x", PyInt 1)]) idle_chat)
  = Some (mkWorker 0 (InputResume (PyDict [("normal_x", PyInt 1)])) false).
Proof. repeat split; reflexivity. Qed.

(** C7, amended: [submit_user_input] never consults the waiting-for-input
    flag; with an agent it clears the flag and starts a worker on
    [Command(resume=values)], whatever the flag was; without an agent it
    does nothing. *)
Theorem submit_user_input_ignores_waiting_flag :
  forall (values : pyval) (c : ChatViewModel),
    (cv_agent c = true ->
       cv_worker (submit_user_input values c)
       = Some (mkWorker (cv_workers_created c) (InputResume values) false) /\
       cv_waiting_for_input (submit_user_input values c) = PyBool false /\
       cv_messages (submit_user_input values c) = cv_messages c) /\
    (cv_agent c = false -> submit_user_input values c = c).
Proof.
  intros values c. unfold submit_user_input.
  split; intros H; rewrite H; simpl; auto.
Qed.

(** ** C2: terminal signals of the worker *)

Definition non_terminal (s : WorkerSignal) : bool := negb (is_terminal s).

Lemma handle_message_non_terminal (m : StreamMessage) (node : string) :
  forallb non_terminal (handle_message m node) = true.
Proof.
  unfold handle_message, token_if_nonempty.
  destruct m as [content tccs|[c|c tcs|c|n c]].
  - destruct (String.eqb node "guardrail"); [reflexivity|].
    rewrite forallb_app. apply andb_true_intro. split.
    + induction tccs as [|[nm|] tccs IH]; simpl; [reflexivity| |exact IH].
      rewrite forallb_app, IH. destruct (String.eqb nm ""); reflexivity.
    + destruct (String.eqb content ""); reflexivity.
  - reflexivity.
  - rewrite forallb_app. apply andb_true_intro. split.
    + induction tcs as [|tc tcs IH]; simpl; [reflexivity|exact IH].
    + destruct (String.eqb c ""); reflexivity.
  - reflexivity.
  - reflexivity.
Qed.

Lemma handle_updates_non_terminal (ev st : dict) (h : bool) :
  forallb non_terminal (fst (handle_updates ev st h)) = true.
Proof.
  unfold handle_updates.
  destruct (truthy (dict_get ev "__interrupt__" PyNone)); [|reflexivity].
  destruct (first_item (dict_get ev "__interrupt__" PyNone)) as [obj|e]; [|reflexivity].
  destruct (interrupt_payload obj) as [[d f]|e]; reflexivity.
Qed.

Lemma worker_loop_non_terminal (cancel_at : option nat) (items : list StreamItem) :
  forall i st h, forallb non_terminal (fst (worker_loop cancel_at i items st h)) = true.
Proof.
  induction items as [|item items IH]; intros i st h; [reflexivity|].
  simpl. destruct item as [ev|m node|e]; [| |reflexivity];
    (destruct (stop_requested cancel_at i); [reflexivity|]).
  - pose proof (handle_updates_non_terminal ev st h) as Hu.
    destruct (handle_updates ev st h) as [sigs [[st1 h1]|e]]; simpl in *; [|exact Hu].
    specialize (IH (S i) st1 h1).
    destruct (worker_loop cancel_at (S i) items st1 h1) as [s2 r2]. simpl in *.
    rewrite forallb_app, Hu, IH. reflexivity.
  - pose proof (handle_message_non_terminal m node) as Hm.
    specialize (IH (S i) st h).
    destruct (worker_loop cancel_at (S i) items st h) as [s2 r2]. simpl in *.
    rewrite forallb_app, Hm, IH. reflexivity.
Qed.

Lemma snapshot_fallback_non_terminal (tasks : list (list pyval)) (st : dict) :
  forallb non_terminal (fst (snapshot_fallback tasks st)) = true.
Proof.
  induction tasks as [|[|v vs] tasks IH]; simpl; [reflexivity|exact IH|].
  destruct (interrupt_payload v) as [[d f]|e]; reflexivity.
Qed.

Lemma dict_get_set_same (d : dict) (k : string) (v dflt : pyval) :
  dict_get (dict_set d k v) k dflt = v.
Proof.
  induction d as [|[k' v'] d IH]; simpl.
  - rewrite String.eqb_refl. reflexivity.
  - destruct (String.eqb_spec k k') as [->|Hne]; simpl.
    + rewrite String.eqb_refl. reflexivity.
    + apply String.eqb_neq in Hne. rewrite Hne. exact IH.
Qed.

Lemma dict_get_set_other (d : dict) (k k' : string) (v dflt : pyval) :
  k <> k' -> dict_get (dict_set d k' v) k dflt = dict_get d k dflt.
Proof.
  intros Hne. induction d as [|[k0 v0] d IH]; simpl.
  - apply String.eqb_neq in Hne. rewrite Hne. reflexivity.
  - destruct (String.eqb_spec k' k0) as [->|H0]; simpl.
    + apply String.eqb_neq in Hne. rewrite Hne. reflexivity.
    + destruct (String.eqb k k0); [reflexivity|exact IH].
Qed.

(** The [("updates", ...)] event the graph stream yields when a run
    suspends: [{"__interrupt__": (Interrupt(value=...), ...)}]. *)
Definition interrupt_update (objs : list pyval) : StreamItem :=
  UpdatesEvent [("__interrupt__", PyList objs)].

Definition slice_request : pyval :=
  PyInterrupt (PyDict [("description", PyStr "To apply the slice filter, I need the Normal.");
                       ("fields", PyList [])]).

(** C2, counterexample: a turn whose stream ends at an interrupt emits the
    input request and then [finished] as well. *)
Lemma interrupted_turn_also_finishes :
  exists st,
    worker_run None [interrupt_update [slice_request]] []
    = [SigInputRequested (PyStr "To apply the slice filter, I need the Normal.") (PyList []);
       SigFinished st] /\
    dict_get st "waiting_for_input" PyNone = PyBool true.
Proof. eexists. split; vm_compute; reflexivity. Qed.

(** C2, amended: every run of the worker ends with exactly one terminal
    signal, [finished(state)] or [error(message)], emitted last; the input
    request is not terminal: when the stream ends at an interrupt (and
    nothing raised before), the worker emits [input_requested] and then
    [finished] with [waiting_for_input] set. *)
Theorem worker_single_terminal_signal :
  (forall (cancel_at : option nat) (items : list StreamItem) (tasks : list (list pyval)),
     exists pre t,
       worker_run cancel_at items tasks = pre ++ [t] /\
       is_terminal t = true /\
       forallb non_terminal pre = true) /\
  (forall (cancel_at : option nat) (pre : list StreamItem) (obj : pyval) (objs : list pyval)
          (tasks : list (list pyval)) (sigs : list WorkerSignal) (st : dict) (h : bool)
          (description fields : pyval),
     worker_loop cancel_at 0 pre initial_state false = (sigs, Ok (st, h)) ->
     stop_requested cancel_at (length pre) = false ->
     interrupt_payload obj = Ok (description, fields) ->
     exists st',
       worker_run cancel_at (pre ++ [interrupt_update (obj :: objs)]) tasks
       = sigs ++ [SigInputRequested description fields; SigFinished st'] /\
       dict_get st' "waiting_for_input" PyNone = PyBool true).
Proof.
  split.
  - intros cancel_at items tasks. unfold worker_run.
    pose proof (worker_loop_non_terminal cancel_at items 0 initial_state false) as Hl.
    destruct (worker_loop cancel_at 0 items initial_state false) as [sigs [[st h]|e]];
      simpl in Hl.
    + destruct h.
      * exists sigs, (SigFinished st). auto.
      * pose proof (snapshot_fallback_non_terminal tasks st) as Hs.
        destruct (snapshot_fallback tasks st) as [sigs2 [st2|e]]; simpl in Hs.
        -- exists (sigs ++ sigs2), (SigFinished st2).
           rewrite <- app_assoc, forallb_app, Hl, Hs. auto.
        -- exists (sigs ++ sigs2), (SigError e).
           rewrite <- app_assoc, forallb_app, Hl, Hs. auto.
    + exists sigs, (SigError e). auto.
  - intros cancel_at pre obj objs tasks sigs st h description fields Hpre Hstop Hobj.
    unfold worker_run.
    rewrite (worker_loop_app cancel_at pre _ 0 initial_state false Hstop), Hpre.
    simpl. rewrite Hstop.
    unfold handle_updates. simpl. rewrite Hobj. simpl.
    eexists. split.
    + rewrite <- app_assoc. reflexivity.
    + unfold dict_update. simpl.
      rewrite dict_get_set_other by discriminate.
      rewrite dict_get_set_other by discriminate.
      apply dict_get_set_same.
Qed.

(** ** C1: history after a blocked turn *)

(** The text the tokens of a signal list add up to. *)
Fixpoint tokens_text (sigs : list WorkerSignal) : string :=
  match sigs with
  | [] => ""
  | SigToken t :: rest => t ++ tokens_text rest
  | _ :: rest => tokens_text rest
  end.

Lemma cleanup_worker_messages (c : ChatViewModel) :
  cv_messages (cleanup_worker c) = cv_messages c.
Proof. unfold cleanup_worker. destruct (cv_worker c); reflexivity. Qed.

Lemma string_append_nil_r (a : string) : (a ++ "")%string = a.
Proof. induction a as [|x a IH]; simpl; [reflexivity|]. rewrite IH. reflexivity. Qed.

Lemma deliver_all_streaming (sigs : list WorkerSignal) :
  forall c,
    forallb non_terminal sigs = true ->
    cv_messages (deliver_all sigs c) = cv_messages c /\
    cv_current_response (deliver_all sigs c) = (cv_current_response c ++ tokens_text sigs)%string /\
    cv_waiting_for_input (deliver_all sigs c) = cv_waiting_for_input c.
Proof.
  induction sigs as [|s sigs IH]; intros c Hnt.
  - simpl. rewrite string_append_nil_r. auto.
  - simpl in Hnt. apply andb_prop in Hnt as [Hs Hnt].
    simpl. destruct (IH (deliver s c) Hnt) as [H1 [H2 H3]]. rewrite H1, H2, H3.
    destruct s as [t|n r|d f|st|e]; simpl in Hs; try discriminate; simpl;
      repeat split; try reflexivity.
    rewrite string_append_assoc. reflexivity.
Qed.

Definition JOKE : string := "tell me a joke".

Definition JOKE_REPLY : string :=
  "Why did the scarecrow win an award? Because he was outstanding in his field.".

(** The graph state at the start of the first turn of a thread, from the
    input the worker passes. *)
Definition first_turn_state (messages : list BaseMessage) : GraphState :=
  apply_update (mkGraphState [] None) (input_payload messages).

(** What the graph stream yields for the first turn [JOKE], which the
    guardrail blocks: the guardrail's structured-output chunk, possibly
    the rejection message it returned (as a whole [AIMessage]), its
    update (node-keyed, with its channel writes), then the agent's reply.
    [rejection_streamed] leaves open whether the stream reports the
    rejection message. *)
Definition blocked_turn_items (rejection_streamed : bool) : list StreamItem :=
  let gs := first_turn_state [HumanMessage JOKE] in
  let update := guardrail_node blocking_model (gs_messages gs) in
  [MessagesEvent (ChunkMsg "" [Some "GuardrailDecision"]) "guardrail"] ++
  (if rejection_streamed
   then [MessagesEvent (FullMsg (AIMessage (rejection_content "off-topic") [])) "guardrail"]
   else []) ++
  [UpdatesEvent [("guardrail", PyDict (channel_writes update))];
   MessagesEvent (ChunkMsg JOKE_REPLY []) "agent";
   UpdatesEvent [("agent", PyDict [("messages", PyList [PyMsg (AIMessage JOKE_REPLY [])])])]].

(** C1: a blocked turn keeps its User message.  Sending [JOKE] on an empty
    history starts a worker on [[HumanMessage JOKE]]; the guardrail blocks
    it and returns [blocked=True], which [AgentState] drops, so the graph
    goes on to the agent; the updates the worker reads are keyed by node,
    so its final state has no [blocked] either.  The controller then keeps
    the User message and appends the streamed text as an Agent message: the
    history has two messages, not the one rejection message the claim
    requires, and still holds the User message. *)
Theorem blocked_turn_keeps_user_message :
  forall rejection_streamed : bool,
    let c0 := send_user_message JOKE idle_chat in
    let gs := first_turn_state [HumanMessage JOKE] in
    let update := guardrail_node blocking_model (gs_messages gs) in
    let c := deliver_all (worker_run None (blocked_turn_items rejection_streamed) []) c0 in
    option_map w_input (cv_worker c0) = Some (InputMessages [HumanMessage JOKE]) /\
    gs = mkGraphState [HumanMessage JOKE] (Some (PyDict [])) /\
    dict_get update "blocked" (PyBool false) = PyBool true /\
    next_node NGuardrail (apply_update gs update) = Ok (TNode NAgent) /\
    cv_messages c
    = [mkChatMessage "User" JOKE;
       mkChatMessage "Agent"
         ((if rejection_streamed then rejection_content "off-topic" else "") ++ JOKE_REPLY)] /\
    In (mkChatMessage "User" JOKE) (cv_messages c) /\
    length (cv_messages c) <> length (cv_messages idle_chat) + 1.
Proof.
  intros b; destruct b; vm_compute;
    repeat split; first [left; reflexivity | discriminate].
Qed.

(** ** C8: cooperative cancellation *)

(** The part of the stream a worker stopped at iteration [k] gets to: the
    first [k] items, and the [k]-th request if it raised. *)
Definition cut_at (k : nat) (items : list StreamItem) : list StreamItem :=
  firstn k items ++
  match nth_error items k with
  | Some (StreamError e) => [StreamError e]
  | _ => []
  end.

Lemma worker_loop_cancel (items : list StreamItem) :
  forall k i st h,
    worker_loop (Some (i + k)) i items st h = worker_loop None i (cut_at k items) st h.
Proof.
  induction items as [|item items IH]; intros k i st h.
  - destruct k; reflexivity.
  - destruct k as [|k].
    + unfold cut_at. simpl. rewrite Nat.add_0_r, Nat.leb_refl.
      destruct item; reflexivity.
    + unfold cut_at. simpl firstn. simpl nth_error. rewrite <- app_comm_cons.
      simpl. destruct item as [ev|m node|e]; [| |reflexivity];
        (assert (Hs : Nat.leb (i + S k) i = false) by (apply Nat.leb_gt; lia);
         rewrite Hs; replace (i + S k) with (S i + k) by lia).
      * destruct (handle_updates ev st h) as [sigs [[st1 h1]|e]]; [|reflexivity].
        rewrite (IH k (S i) st1 h1). reflexivity.
      * rewrite (IH k (S i) st h). reflexivity.
Qed.

Lemma worker_run_cancel (k : nat) (items : list StreamItem) (tasks : list (list pyval)) :
  worker_run (Some k) items tasks = worker_run None (cut_at k items) tasks.
Proof. unfold worker_run. rewrite <- (worker_loop_cancel items k 0). reflexivity. Qed.

(** The signals the loop itself emits for the stream items (tokens and tool
    activity among them). *)
Definition stream_signal (s : WorkerSignal) : bool :=
  match s with
  | SigToken _ | SigToolActivity _ _ => true
  | _ => false
  end.

Lemma snapshot_fallback_no_stream_signal (tasks : list (list pyval)) (st : dict) :
  forallb (fun s => negb (stream_signal s)) (fst (snapshot_fallback tasks st)) = true.
Proof.
  induction tasks as [|[|v vs] tasks IH]; simpl; [reflexivity|exact IH|].
  destruct (interrupt_payload v) as [[d f]|e]; reflexivity.
Qed.

(** Folding the signals of a stopped worker into the view model. *)
Definition deliver_all_stopped (w : Worker) (sigs : list WorkerSignal) (c : ChatViewModel)
    : ChatViewModel :=
  fold_left (fun acc s => deliver_stopped w s acc) sigs c.

Lemma deliver_all_stopped_preserves (w : Worker) (sigs : list WorkerSignal) :
  forall c,
    cv_messages (deliver_all_stopped w sigs c) = cv_messages c /\
    cv_waiting_for_input (deliver_all_stopped w sigs c) = cv_waiting_for_input c /\
    cv_current_response (deliver_all_stopped w sigs c) = cv_current_response c.
Proof.
  induction sigs as [|s sigs IH]; intros c; simpl; [auto|].
  destruct (IH (deliver_stopped w s c)) as [H1 [H2 H3]]. rewrite H1, H2, H3.
  destruct s; simpl; auto.
Qed.

(** C8, counterexample: the stop flag is seen at the second iteration, yet
    the worker still emits [finished] afterwards. *)
Lemma cancelled_worker_still_finishes :
  worker_run (Some 1)
    [MessagesEvent (ChunkMsg "Apply" []) "agent"; MessagesEvent (ChunkMsg "ing" []) "agent"] []
  = [SigToken "Apply"; SigFinished initial_state].
Proof. vm_compute. reflexivity. Qed.

Lemma worker_run_split (cancel_at : option nat) (items : list StreamItem)
    (tasks : list (list pyval)) :
  exists tail,
    worker_run cancel_at items tasks
    = fst (worker_loop cancel_at 0 items initial_state false) ++ tail /\
    forallb (fun s => negb (stream_signal s)) tail = true.
Proof.
  unfold worker_run.
  destruct (worker_loop cancel_at 0 items initial_state false) as [sigs [[st h]|e]]; simpl.
  - destruct h.
    + exists [SigFinished st]. auto.
    + pose proof (snapshot_fallback_no_stream_signal tasks st) as Hs.
      destruct (snapshot_fallback tasks st) as [sigs2 [st2|e]]; simpl in Hs.
      * exists (sigs2 ++ [SigFinished st2]). rewrite forallb_app, Hs. auto.
      * exists (sigs2 ++ [SigError e]). rewrite forallb_app, Hs. auto.
  - exists [SigError e]. auto.
Qed.

Lemma worker_loop_cut_signals (k : nat) (items : list StreamItem) :
  fst (worker_loop None 0 (cut_at k items) initial_state false)
  = fst (worker_loop None 0 (firstn k items) initial_state false).
Proof.
  unfold cut_at.
  rewrite (worker_loop_app None (firstn k items) _ 0 initial_state false eq_refl).
  destruct (worker_loop None 0 (firstn k items) initial_state false) as [s1 [[st h]|e]];
    [|reflexivity].
  destruct (nth_error items k) as [[ev|m node|e]|]; simpl; apply app_nil_r.
Qed.

(** C8, amended: once the stop flag is seen at iteration [k], the worker
    reads no further items (its signals are those of the stream cut there)
    and emits no further token or tool-activity signal, only its end-of-run
    signals (the snapshot input request when no interrupt was handled, then
    [finished] or [error]).  [stop_generation] disconnects the worker before
    those arrive: they change neither the history nor [waiting_for_input],
    which [stop_generation] leaves as it was, and the partial response is
    appended to the history as an Agent message. *)
Theorem cancellation_contract :
  (forall (k : nat) (items : list StreamItem) (tasks : list (list pyval)),
     worker_run (Some k) items tasks = worker_run None (cut_at k items) tasks /\
     exists tail,
       worker_run (Some k) items tasks
       = fst (worker_loop None 0 (firstn k items) initial_state false) ++ tail /\
       forallb (fun s => negb (stream_signal s)) tail = true) /\
  (forall (c : ChatViewModel) (w : Worker) (sigs : list WorkerSignal),
     cv_worker c = Some w ->
     let stopped := mkWorker (w_id w) (w_input w) true in
     let c' := stop_generation c in
     cv_worker c' = None /\
     In stopped (cv_stopping_workers c') /\
     cv_waiting_for_input c' = cv_waiting_for_input c /\
     cv_messages c'
     = cv_messages c ++ (if String.eqb (cv_current_response c) "" then []
                         else [mkChatMessage "Agent" (cv_current_response c)]) /\
     cv_messages (deliver_all_stopped stopped sigs c') = cv_messages c' /\
     cv_waiting_for_input (deliver_all_stopped stopped sigs c') = cv_waiting_for_input c).
Proof.
  split.
  - intros k items tasks. rewrite worker_run_cancel. split; [reflexivity|].
    destruct (worker_run_split None (cut_at k items) tasks) as [tail [E Ht]].
    exists tail. rewrite E, worker_loop_cut_signals. auto.
  - intros c w sigs Hw stopped c'.
    destruct (deliver_all_stopped_preserves stopped sigs c') as [H1 [H2 _]].
    rewrite H1, H2.
    subst c'. unfold stop_generation. rewrite Hw.
    destruct (String.eqb (cv_current_response c) ""); simpl;
      repeat split; try reflexivity;
      first [ symmetry; apply app_nil_r
            | apply in_or_app; right; left; reflexivity ].
Qed.

Lemma cancellation_contract_witness :
  cv_worker (stop_generation (start_worker (InputMessages []) idle_chat)) = None.
Proof.
  exact (proj1 (proj2 cancellation_contract (start_worker (InputMessages []) idle_chat)
                  (mkWorker 0 (InputMessages []) false) [] eq_refl)).
Defined.

(** ** C3: tool name uniqueness *)

(** C3, counterexample: with the pipeline view model present, the registry
    holds two tools named [set_color_by] (and likewise for five other names),
    and [get_all_tools] returns them without any error. *)
Lemma duplicate_tool_names_registered :
  count_occ string_dec (map tool_name (get_all_tools (Some pipeline_vm_members))) "set_color_by" = 2 /\
  length (get_all_tools (Some pipeline_vm_members)) = 25 /\
  filter (fun n => Nat.ltb 1 (count_occ string_dec
                                (map tool_name (get_all_tools (Some pipeline_vm_members))) n))
         (map tool_name static_tools)
  = ["set_color_by"; "set_representation"; "set_opacity"; "set_visual_property";
     "auto_fit_scalar_range"; "set_scalar_range"].
Proof. vm_compute. repeat split; reflexivity. Qed.

(** C3, amended: [get_all_tools] returns the static tools followed by one
    tool per tool-tagged method of the pipeline view model, in the order
    [inspect.getmembers] lists them; no name is checked, so a name that
    occurs in both sources is registered twice, without error. *)
Theorem get_all_tools_concatenates :
  forall (vm : list Member),
    map tool_name (get_all_tools (Some vm))
    = map tool_name static_tools
      ++ map member_tool_name (filter (fun m => member_is_method m && member_is_tool m) vm) /\
    get_all_tools None = static_tools.
Proof.
  intros vm. split; [|reflexivity].
  unfold get_all_tools. rewrite map_app. f_equal.
  unfold generate_tools.
  induction vm as [|m vm IH]; [reflexivity|].
  simpl. destruct (member_is_method m), (member_is_tool m); simpl; rewrite ?IH; reflexivity.
Qed.

(** ** C4: the value a resumed [request_user_input] returns *)

Definition RESUME_PREFIX : string := "User Input Received: ".
Definition RESUME_SUFFIX : string := ". Proceed with the requested action using these values.".

Definition slice_values : pyval :=
  PyDict [("normal_x", PyInt 1); ("normal_y", PyInt 0); ("normal_z", PyInt 0)].

(** The fields of a request for a slice normal. *)
Definition slice_fields : list InputField :=
  [mkInputField "normal_x" "Normal X" FNumber (PyInt 1) None None None None;
   mkInputField "normal_y" "Normal Y" FNumber (PyInt 0) None None None None;
   mkInputField "normal_z" "Normal Z" FNumber (PyInt 0) None None None None].

Definition SLICE_DESCRIPTION : string := "To apply the slice filter, I need the Normal.".

(** C4, counterexample: resumed with [{normal_x: 1, normal_y: 0, normal_z: 0}],
    whose [str] is ["{'normal_x': 1, 'normal_y': 0, 'normal_z': 0}"], the
    tool returns that text wrapped in a fixed sentence, not the text alone. *)
Lemma resumed_tool_wraps_values :
  let s := "{'normal_x': 1, 'normal_y': 0, 'normal_z': 0}" in
  py_format false slice_values = Some s /\
  forall py_str : pyval -> string,
    py_str slice_values = s ->
    run_request_user_input py_str (Ok (SLICE_DESCRIPTION, slice_fields)) (Some slice_values)
    = Ok (Returned "User Input Received: {'normal_x': 1, 'normal_y': 0, 'normal_z': 0}. Proceed with the requested action using these values.") /\
    run_request_user_input py_str (Ok (SLICE_DESCRIPTION, slice_fields)) (Some slice_values)
    <> Ok (Returned s).
Proof.
  intros s. split; [vm_compute; reflexivity|].
  intros py_str E. simpl. rewrite E.
  split; [reflexivity|]. discriminate.
Qed.

(** C4, amended: the tool's arguments are first validated against
    [InputRequest]; a validation error is raised before the body runs and
    nothing is suspended.  On valid arguments the first call suspends the
    run with [{description, fields}], each field as its [model_dump()];
    resumed with values [V], it returns ["User Input Received: " ++ str(V)
    ++ ". Proceed with the requested action using these values."], which
    always differs from [str(V)]. *)
Theorem resumed_request_user_input_result :
  forall (py_str : pyval -> string) (parsed : exc (string * list InputField))
         (values : pyval),
    (forall e resume, parsed = Raise e -> run_request_user_input py_str parsed resume = Raise e) /\
    (forall description fields,
       parsed = Ok (description, fields) ->
       run_request_user_input py_str parsed None
       = Ok (Suspended (PyDict [("description", PyStr description);
                                ("fields", PyList (map input_field_dump fields))])) /\
       run_request_user_input py_str parsed (Some values)
       = Ok (Returned (RESUME_PREFIX ++ py_str values ++ RESUME_SUFFIX)) /\
       run_request_user_input py_str parsed (Some values) <> Ok (Returned (py_str values))).
Proof.
  intros py_str parsed values.
  split; [intros e resume ->; reflexivity|].
  intros description fields ->.
  split; [reflexivity|]. split; [reflexivity|].
  simpl. intros H. injection H as H.
  apply (f_equal String.length) in H.
  simpl in H. rewrite string_length_append in H. simpl in H. lia.
Qed.

Lemma resumed_request_user_input_result_witness :
  run_request_user_input (fun _ => "{}") (Ok (SLICE_DESCRIPTION, slice_fields)) (Some (PyDict []))
  = Ok (Returned (RESUME_PREFIX ++ "{}" ++ RESUME_SUFFIX)) /\
  run_request_user_input (fun _ => "{}") (Raise "1 validation error for InputRequest") None
  = Raise "1 validation error for InputRequest".
Proof.
  split.
  - exact (proj1 (proj2 (proj2 (resumed_request_user_input_result (fun _ => "{}")
             (Ok (SLICE_DESCRIPTION, slice_fields)) (PyDict [])) SLICE_DESCRIPTION slice_fields
             eq_refl))).
  - exact (proj1 (resumed_request_user_input_result (fun _ => "{}")
             (Raise "1 validation error for InputRequest") (PyDict []))
             "1 validation error for InputRequest" None eq_refl).
Defined.

(** * Further properties of the code *)

(** ** History conversion and system messages *)

Definition is_chat_turn (m : ChatMessage) : bool :=
  String.eqb (sender m) "User" || String.eqb (sender m) "Agent".

(** X1: the history handed to the agent holds exactly the User and Agent
    messages, in order (as Human and AI messages); a System message, such as
    the engine greeting, is shown in the chat but never sent to the agent. *)
Theorem langchain_history_drops_system :
  forall (c : ChatViewModel) (text : string),
    get_langchain_messages c
    = map (fun m => if String.eqb (sender m) "User" then HumanMessage (msg_content m)
                    else AIMessage (msg_content m) [])
          (filter is_chat_turn (cv_messages c)) /\
    cv_messages (initialize_with_engine_message text c)
    = cv_messages c ++ [mkChatMessage "System" text] /\
    get_langchain_messages (initialize_with_engine_message text c) = get_langchain_messages c.
Proof.
  intros c text. split; [|split; [reflexivity|]].
  - unfold get_langchain_messages. induction (cv_messages c) as [|m ms IH]; [reflexivity|].
    simpl. rewrite IH. unfold to_langchain_message, is_chat_turn.
    destruct (String.eqb (sender m) "User") eqn:EU; simpl; rewrite ?EU; [reflexivity|].
    destruct (String.eqb (sender m) "Agent"); simpl; rewrite ?EU; reflexivity.
  - unfold get_langchain_messages. simpl. rewrite flat_map_app. simpl.
    rewrite app_nil_r. reflexivity.
Qed.

(** ** The agent node *)

(** X2: the agent node calls the model on the history with the preamble
    in front: a history that already starts with a System message is passed
    unchanged, so a preamble is never doubled; any other history (the empty
    one too) gets [SystemMessage(SYSTEM_PROMPT)] put in front.  The list
    passed always starts with a System message, and the node returns the
    model's one response as its only new message. *)
Theorem agent_node_preamble :
  forall (model_with_tools : list BaseMessage -> BaseMessage) (messages : list BaseMessage),
    (forall s rest, agent_node_input (SystemMessage s :: rest) = SystemMessage s :: rest) /\
    ((forall s rest, messages <> SystemMessage s :: rest) ->
       agent_node_input messages = SystemMessage SYSTEM_PROMPT :: messages) /\
    agent_node_input (agent_node_input messages) = agent_node_input messages /\
    (exists s rest, agent_node_input messages = SystemMessage s :: rest) /\
    agent_node model_with_tools messages
    = [("messages", PyList [PyMsg (model_with_tools (agent_node_input messages))])].
Proof.
  intros model messages.
  split; [reflexivity|].
  split.
  { intros Hns. destruct messages as [|m ms]; [reflexivity|].
    destruct m as [c|c tcs|c|n c]; try reflexivity.
    exfalso. exact (Hns c ms eq_refl). }
  split.
  { destruct messages as [|m ms]; [reflexivity|].
    destruct m; reflexivity. }
  split; [|reflexivity].
  destruct messages as [|m ms]; [eexists _, _; reflexivity|].
  destruct m; eexists _, _; reflexivity.
Qed.
Lemma agent_node_preamble_witness :
  agent_node_input [HumanMessage "slice it"]
  = [SystemMessage SYSTEM_PROMPT; HumanMessage "slice it"].
Proof.
  exact (proj1 (proj2 (agent_node_preamble (fun _ => AIMessage "" []) [HumanMessage "slice it"]))
           (fun s rest H => ltac:(discriminate H))).
Defined.


(** ** Sending a message *)

(** X3: with an agent, sending a non-blank text appends one User message,
    emits [message_added], [agent_thinking] and [streaming_started] in that
    order, resets the streamed text and the waiting flag, and starts a
    worker on the converted history, whose last message is the new text. *)
Theorem send_user_message_starts_worker :
  forall (content : string) (c : ChatViewModel),
    is_blank content = false ->
    cv_agent c = true ->
    let c' := send_user_message content c in
    cv_messages c' = cv_messages c ++ [mkChatMessage "User" content] /\
    cv_emitted c' = cv_emitted c ++ [UiMessageAdded (mkChatMessage "User" content);
                                     UiAgentThinking; UiStreamingStarted] /\
    cv_worker c' = Some (mkWorker (cv_workers_created c)
                           (InputMessages (get_langchain_messages c ++ [HumanMessage content]))
                           false) /\
    cv_current_response c' = "" /\
    cv_waiting_for_input c' = PyBool false.
Proof.
  intros content c Hb Ha. unfold send_user_message, process_with_agent.
  rewrite Hb. simpl. rewrite Ha. simpl.
  rewrite <- !app_assoc. simpl.
  unfold get_langchain_messages. simpl. rewrite flat_map_app. simpl.
  repeat split; reflexivity.
Qed.

Lemma send_user_message_starts_worker_witness :
  cv_worker (send_user_message "slice it" idle_chat)
  = Some (mkWorker 0 (InputMessages [HumanMessage "slice it"]) false).
Proof.
  exact (proj1 (proj2 (proj2 (send_user_message_starts_worker "slice it" idle_chat
                                eq_refl eq_refl)))).
Defined.

(** X4: without an agent, sending a non-blank text appends the User message
    and then the fixed Agent reply asking to configure the API key, and no
    worker is started. *)
Theorem send_without_agent_replies_unavailable :
  forall (content : string) (c : ChatViewModel),
    is_blank content = false ->
    cv_agent c = false ->
    cv_messages (send_user_message content c)
    = cv_messages c ++ [mkChatMessage "User" content;
                        mkChatMessage "Agent" "Agent not available. Please configure OPENAI_API_KEY."] /\
    cv_worker (send_user_message content c) = cv_worker c.
Proof.
  intros content c Hb Ha. unfold send_user_message, process_with_agent.
  rewrite Hb. simpl. rewrite Ha. simpl.
  rewrite <- app_assoc. split; reflexivity.
Qed.

Definition offline_chat : ChatViewModel :=
  mkChat [] false None "" (PyBool false) (PyList []) [] [] 0.

Lemma send_without_agent_replies_unavailable_witness :
  cv_worker (send_user_message "hi" offline_chat) = None.
Proof.
  exact (proj2 (send_without_agent_replies_unavailable "hi" offline_chat eq_refl eq_refl)).
Defined.

(** ** Whole turns through the controller *)

Lemma cleanup_worker_fields (c : ChatViewModel) :
  cv_worker (cleanup_worker c) = None /\
  cv_messages (cleanup_worker c) = cv_messages c /\
  cv_waiting_for_input (cleanup_worker c) = cv_waiting_for_input c /\
  cv_input_fields (cleanup_worker c) = cv_input_fields c /\
  cv_current_response (cleanup_worker c) = cv_current_response c /\
  cv_emitted (cleanup_worker c) = cv_emitted c /\
  cv_stopping_workers (cleanup_worker c) = cv_stopping_workers c.
Proof. unfold cleanup_worker. destruct (cv_worker c) eqn:E; simpl; repeat split; auto. Qed.

Lemma on_streaming_finished_fields (st : dict) (c : ChatViewModel) :
  let c' := on_streaming_finished st c in
  cv_messages c'
  = (if String.eqb (cv_current_response c) "" then cv_messages c
     else if truthy (dict_get st "blocked" (PyBool false)) then
       (if last_is_user (cv_messages c) then pop_last (cv_messages c) else cv_messages c)
     else cv_messages c ++ [mkChatMessage "Agent" (cv_current_response c)]) /\
  cv_worker c' = None /\
  cv_waiting_for_input c' = dict_get st "waiting_for_input" (PyBool false) /\
  cv_input_fields c' = dict_get st "input_fields" (PyList []) /\
  cv_current_response c' = cv_current_response c.
Proof.
  simpl. unfold on_streaming_finished.
  destruct (String.eqb (cv_current_response c) "");
    [|destruct (truthy (dict_get st "blocked" (PyBool false)));
      [destruct (last_is_user (cv_messages c))|]];
    unfold cleanup_worker; simpl; destruct (cv_worker c) eqn:E; simpl; repeat split; auto.
Qed.

Lemma send_user_message_fields (content : string) (c : ChatViewModel) :
  is_blank content = false -> cv_agent c = true ->
  cv_messages (send_user_message content c) = cv_messages c ++ [mkChatMessage "User" content] /\
  cv_current_response (send_user_message content c) = "" /\
  cv_agent (send_user_message content c) = true /\
  cv_waiting_for_input (send_user_message content c) = PyBool false /\
  cv_emitted (send_user_message content c)
  = cv_emitted c ++ [UiMessageAdded (mkChatMessage "User" content);
                     UiAgentThinking; UiStreamingStarted].
Proof.
  intros Hb Ha. unfold send_user_message, process_with_agent.
  rewrite Hb. simpl. rewrite Ha. simpl. rewrite <- !app_assoc. auto.
Qed.

(** X5: a turn that streams some text and finishes unblocked leaves the
    history extended by the User message and one Agent message holding the
    whole streamed text; the worker is released and [waiting_for_input]
    takes the value the finished state carries. *)
Theorem completed_turn_appends_reply :
  forall (c : ChatViewModel) (content : string) (sigs : list WorkerSignal) (st : dict),
    is_blank content = false ->
    cv_agent c = true ->
    forallb non_terminal sigs = true ->
    tokens_text sigs <> "" ->
    truthy (dict_get st "blocked" (PyBool false)) = false ->
    let c' := deliver (SigFinished st) (deliver_all sigs (send_user_message content c)) in
    cv_messages c' = cv_messages c ++ [mkChatMessage "User" content;
                                       mkChatMessage "Agent" (tokens_text sigs)] /\
    cv_worker c' = None /\
    cv_waiting_for_input c' = dict_get st "waiting_for_input" (PyBool false).
Proof.
  intros c content sigs st Hb Ha Hnt Ht Hbl c'.
  destruct (send_user_message_fields content c Hb Ha) as [M1 [R1 _]].
  destruct (deliver_all_streaming sigs (send_user_message content c) Hnt) as [M2 [R2 _]].
  rewrite R1 in R2. simpl in R2.
  destruct (on_streaming_finished_fields st (deliver_all sigs (send_user_message content c)))
    as [M3 [W3 [Wt3 _]]].
  subst c'. simpl. rewrite M3, W3, Wt3, R2, M2, M1, Hbl.
  destruct (String.eqb_spec (tokens_text sigs) "") as [E|_]; [contradiction|].
  rewrite <- app_assoc. auto.
Qed.

Lemma completed_turn_appends_reply_witness :
  cv_messages (deliver (SigFinished initial_state)
                 (deliver_all [SigToken "Done"] (send_user_message "slice it" idle_chat)))
  = [mkChatMessage "User" "slice it"; mkChatMessage "Agent" "Done"].
Proof.
  exact (proj1 (completed_turn_appends_reply idle_chat "slice it" [SigToken "Done"]
                  initial_state eq_refl eq_refl eq_refl ltac:(discriminate) eq_refl)).
Defined.

(** X6: a turn that streams no text keeps the User message and adds no Agent
    message, whether or not the finished state says [blocked]. *)
Theorem silent_turn_keeps_user_message :
  forall (c : ChatViewModel) (content : string) (sigs : list WorkerSignal) (st : dict),
    is_blank content = false ->
    cv_agent c = true ->
    forallb non_terminal sigs = true ->
    tokens_text sigs = "" ->
    cv_messages (deliver (SigFinished st) (deliver_all sigs (send_user_message content c)))
    = cv_messages c ++ [mkChatMessage "User" content].
Proof.
  intros c content sigs st Hb Ha Hnt Ht.
  destruct (send_user_message_fields content c Hb Ha) as [M1 [R1 _]].
  destruct (deliver_all_streaming sigs (send_user_message content c) Hnt) as [M2 [R2 _]].
  rewrite R1, Ht in R2. simpl in R2.
  destruct (on_streaming_finished_fields st (deliver_all sigs (send_user_message content c)))
    as [M3 _].
  simpl. rewrite M3, R2, M2, M1. reflexivity.
Qed.

Lemma silent_turn_keeps_user_message_witness :
  cv_messages (deliver (SigFinished [("blocked", PyBool true)])
                 (deliver_all [SigToolActivity "get_pipeline_info" "ok"]
                    (send_user_message "hi" idle_chat)))
  = [mkChatMessage "User" "hi"].
Proof.
  exact (silent_turn_keeps_user_message idle_chat "hi" [SigToolActivity "get_pipeline_info" "ok"]
           [("blocked", PyBool true)] eq_refl eq_refl eq_refl eq_refl).
Defined.

Lemma deliver_all_app (a b : list WorkerSignal) (c : ChatViewModel) :
  deliver_all (a ++ b) c = deliver_all b (deliver_all a c).
Proof. unfold deliver_all. apply fold_left_app. Qed.

Lemma deliver_agent (s : WorkerSignal) (c : ChatViewModel) :
  cv_agent (deliver s c) = cv_agent c.
Proof.
  destruct s; simpl;
    unfold on_token_received, on_streaming_finished, on_agent_error, add_agent_response,
      cleanup_worker; simpl;
    repeat match goal with
           | |- context [if ?b then _ else _] => destruct b
           | |- context [match cv_worker ?x with _ => _ end] => destruct (cv_worker x)
           end; reflexivity.
Qed.

Lemma deliver_all_agent (sigs : list WorkerSignal) :
  forall c, cv_agent (deliver_all sigs c) = cv_agent c.
Proof.
  induction sigs as [|s sigs IH]; intros c; [reflexivity|].
  simpl. rewrite IH. apply deliver_agent.
Qed.

(** The UI signals emitted so far are never taken back. *)
Lemma deliver_emitted_grows (s : WorkerSignal) (c : ChatViewModel) :
  exists l, cv_emitted (deliver s c) = cv_emitted c ++ l.
Proof.
  destruct s; simpl;
    unfold on_token_received, on_streaming_finished, on_agent_error, add_agent_response,
      cleanup_worker; simpl;
    repeat match goal with
           | |- context [if ?b then _ else _] => destruct b
           | |- context [match cv_worker ?x with _ => _ end] => destruct (cv_worker x)
           end; simpl; rewrite <- ?app_assoc; eexists; reflexivity.
Qed.

Lemma deliver_all_emitted_grows (sigs : list WorkerSignal) :
  forall c, exists l, cv_emitted (deliver_all sigs c) = cv_emitted c ++ l.
Proof.
  induction sigs as [|s sigs IH]; intros c.
  - exists []. symmetry. apply app_nil_r.
  - simpl. destruct (deliver_emitted_grows s c) as [l1 E1].
    destruct (IH (deliver s c)) as [l2 E2].
    exists (l1 ++ l2). rewrite E2, E1, app_assoc. reflexivity.
Qed.

Lemma worker_run_interrupt (cancel_at : option nat) (pre : list StreamItem) (obj : pyval)
    (objs : list pyval) (tasks : list (list pyval)) (sigs : list WorkerSignal) (st : dict)
    (h : bool) (description fields : pyval) :
  worker_loop cancel_at 0 pre initial_state false = (sigs, Ok (st, h)) ->
  stop_requested cancel_at (length pre) = false ->
  interrupt_payload obj = Ok (description, fields) ->
  exists st',
    worker_run cancel_at (pre ++ [interrupt_update (obj :: objs)]) tasks
    = sigs ++ [SigInputRequested description fields; SigFinished st'] /\
    dict_get st' "waiting_for_input" (PyBool false) = PyBool true /\
    dict_get st' "input_fields" (PyList []) = fields.
Proof.
  intros Hpre Hstop Hobj. unfold worker_run.
  rewrite (worker_loop_app cancel_at pre _ 0 initial_state false Hstop), Hpre.
  simpl. rewrite Hstop.
  unfold handle_updates. simpl. rewrite Hobj. simpl.
  eexists. split; [|split].
  - rewrite <- app_assoc. reflexivity.
  - unfold dict_update. simpl.
    rewrite dict_get_set_other by discriminate.
    rewrite dict_get_set_other by discriminate.
    apply dict_get_set_same.
  - unfold dict_update. simpl.
    rewrite dict_get_set_other by discriminate.
    apply dict_get_set_same.
Qed.

(** X7: a turn whose stream suspends at an interrupt, run end to end
    through the worker and the controller: the UI is asked for the fields of
    the first interrupt, and once [finished] arrives the view model waits for
    input with those fields and has released the worker. *)
Theorem interrupted_turn_waits_for_input :
  forall (c : ChatViewModel) (content : string) (pre : list StreamItem) (obj : pyval)
         (objs : list pyval) (tasks : list (list pyval)) (sigs : list WorkerSignal)
         (st : dict) (h : bool) (description fields : pyval),
    is_blank content = false ->
    cv_agent c = true ->
    worker_loop None 0 pre initial_state false = (sigs, Ok (st, h)) ->
    interrupt_payload obj = Ok (description, fields) ->
    let c' := deliver_all (worker_run None (pre ++ [interrupt_update (obj :: objs)]) tasks)
                (send_user_message content c) in
    cv_waiting_for_input c' = PyBool true /\
    cv_input_fields c' = fields /\
    cv_worker c' = None /\
    In (UiInputRequested description fields) (cv_emitted c').
Proof.
  intros c content pre obj objs tasks sigs st h d f Hb Ha Hpre Hobj c'.
  destruct (worker_run_interrupt None pre obj objs tasks sigs st h d f Hpre eq_refl Hobj)
    as [st' [E [Hw Hf]]].
  subst c'. rewrite E, deliver_all_app. simpl.
  set (c1 := deliver_all sigs (send_user_message content c)).
  destruct (on_streaming_finished_fields st' (emit (UiInputRequested d f) c1))
    as [_ [W [Wt [F _]]]].
  rewrite W, Wt, F, Hw, Hf. repeat split.
  destruct (deliver_emitted_grows (SigFinished st') (emit (UiInputRequested d f) c1))
    as [l El].
  simpl in El. rewrite El. simpl. apply in_or_app. left.
  apply in_or_app. right. left. reflexivity.
Qed.

Lemma interrupted_turn_waits_for_input_witness :
  cv_waiting_for_input
    (deliver_all (worker_run None ([] ++ [interrupt_update [slice_request]]) [])
       (send_user_message "slice the volume" idle_chat))
  = PyBool true.
Proof.
  exact (proj1 (interrupted_turn_waits_for_input idle_chat "slice the volume" [] slice_request
                  [] [] [] initial_state false
                  (PyStr "To apply the slice filter, I need the Normal.") (PyList [])
                  eq_refl eq_refl eq_refl eq_refl)).
Defined.

Lemma submit_user_input_fields (values : pyval) (c : ChatViewModel) :
  cv_agent c = true ->
  cv_messages (submit_user_input values c) = cv_messages c /\
  cv_current_response (submit_user_input values c) = cv_current_response c /\
  cv_agent (submit_user_input values c) = true /\
  cv_worker (submit_user_input values c)
  = Some (mkWorker (cv_workers_created c) (InputResume values) false).
Proof. intros Ha. unfold submit_user_input. rewrite Ha. simpl. auto. Qed.

(** X8: [_current_response] is reset when a message is sent, not when input
    is submitted.  A first leg that streams [t1] and finishes unblocked,
    followed by a resumed leg that streams [t2] and finishes unblocked, adds
    the Agent messages [t1] and then [t1 ++ t2]: the second repeats the
    first. *)
Theorem resumed_turn_repeats_earlier_text :
  forall (c : ChatViewModel) (content : string) (sigs1 sigs2 : list WorkerSignal)
         (st1 st2 : dict) (values : pyval),
    is_blank content = false ->
    cv_agent c = true ->
    forallb non_terminal sigs1 = true ->
    forallb non_terminal sigs2 = true ->
    tokens_text sigs1 <> "" ->
    truthy (dict_get st1 "blocked" (PyBool false)) = false ->
    truthy (dict_get st2 "blocked" (PyBool false)) = false ->
    let c1 := deliver (SigFinished st1) (deliver_all sigs1 (send_user_message content c)) in
    let c2 := deliver (SigFinished st2) (deliver_all sigs2 (submit_user_input values c1)) in
    cv_messages c2
    = cv_messages c ++ [mkChatMessage "User" content;
                        mkChatMessage "Agent" (tokens_text sigs1);
                        mkChatMessage "Agent" (tokens_text sigs1 ++ tokens_text sigs2)].
Proof.
  intros c content sigs1 sigs2 st1 st2 values Hb Ha Hnt1 Hnt2 Ht Hbl1 Hbl2 c1 c2.
  destruct (send_user_message_fields content c Hb Ha) as [M0 [R0 [A0 _]]].
  destruct (deliver_all_streaming sigs1 (send_user_message content c) Hnt1) as [M1 [R1 _]].
  rewrite R0 in R1. simpl in R1.
  destruct (on_streaming_finished_fields st1 (deliver_all sigs1 (send_user_message content c)))
    as [M2 [_ [_ [_ R2]]]].
  assert (A1 : cv_agent c1 = true).
  { subst c1. rewrite deliver_agent, deliver_all_agent. exact A0. }
  destruct (submit_user_input_fields values c1 A1) as [M3 [R3 _]].
  destruct (deliver_all_streaming sigs2 (submit_user_input values c1) Hnt2) as [M4 [R4 _]].
  destruct (on_streaming_finished_fields st2 (deliver_all sigs2 (submit_user_input values c1)))
    as [M5 _].
  assert (Hc1 : cv_messages c1 = cv_messages c ++ [mkChatMessage "User" content;
                                                   mkChatMessage "Agent" (tokens_text sigs1)]).
  { subst c1. simpl. rewrite M2, R1, M1, M0, Hbl1.
    destruct (String.eqb_spec (tokens_text sigs1) "") as [E|_]; [contradiction|].
    rewrite <- app_assoc. reflexivity. }
  assert (Hr1 : cv_current_response c1 = tokens_text sigs1).
  { subst c1. simpl. rewrite R2, R1. reflexivity. }
  subst c2. simpl. rewrite M5, R4, M4, R3, M3, Hr1, Hc1, Hbl2.
  destruct (String.eqb_spec (tokens_text sigs1 ++ tokens_text sigs2) "") as [E|_].
  - exfalso. apply Ht. destruct (tokens_text sigs1); [reflexivity|discriminate].
  - rewrite <- app_assoc. reflexivity.
Qed.

Lemma resumed_turn_repeats_earlier_text_witness :
  cv_messages
    (deliver (SigFinished initial_state)
       (deliver_all [SigToken " Done."]
          (submit_user_input (PyDict [("normal", PyStr "x")])
             (deliver (SigFinished initial_state)
                (deliver_all [SigToken "Need the normal."]
                   (send_user_message "slice it" idle_chat))))))
  = [mkChatMessage "User" "slice it"; mkChatMessage "Agent" "Need the normal.";
     mkChatMessage "Agent" "Need the normal. Done."].
Proof.
  exact (resumed_turn_repeats_earlier_text idle_chat "slice it" [SigToken "Need the normal."]
           [SigToken " Done."] initial_state initial_state (PyDict [("normal", PyStr "x")])
           eq_refl eq_refl eq_refl eq_refl ltac:(discriminate) eq_refl eq_refl).
Defined.

(** X9: a turn that ends in [error(e)] adds the User message and one Agent
    message ["Error: " ++ e]; the text streamed before the error is not put
    in the history, the worker is released and [waiting_for_input] stays
    [False]. *)
Theorem failed_turn_records_error :
  forall (c : ChatViewModel) (content : string) (sigs : list WorkerSignal) (e : string),
    is_blank content = false ->
    cv_agent c = true ->
    forallb non_terminal sigs = true ->
    let c' := deliver (SigError e) (deliver_all sigs (send_user_message content c)) in
    cv_messages c' = cv_messages c ++ [mkChatMessage "User" content;
                                       mkChatMessage "Agent" ("Error: " ++ e)] /\
    cv_worker c' = None /\
    cv_waiting_for_input c' = PyBool false.
Proof.
  intros c content sigs e Hb Ha Hnt c'.
  destruct (send_user_message_fields content c Hb Ha) as [M0 [_ [_ [W0 _]]]].
  destruct (deliver_all_streaming sigs (send_user_message content c) Hnt) as [M1 [_ W1]].
  subst c'. simpl. unfold on_agent_error, add_agent_response.
  destruct (cleanup_worker_fields
              (emit UiStreamingFinished
                 (emit (UiAgentResponse ("Error: " ++ e))
                    (emit (UiMessageAdded (mkChatMessage "Agent" ("Error: " ++ e)))
                       (set_messages (deliver_all sigs (send_user_message content c))
                          (cv_messages (deliver_all sigs (send_user_message content c)) ++
                           [mkChatMessage "Agent" ("Error: " ++ e)]))))))
    as [W [M [Wt _]]].
  rewrite W, M, Wt. simpl. rewrite M1, M0, W1, W0, <- app_assoc. auto.
Qed.

Lemma failed_turn_records_error_witness :
  cv_messages (deliver (SigError "Connection error.")
                 (deliver_all [SigToken "Slic"] (send_user_message "slice it" idle_chat)))
  = [mkChatMessage "User" "slice it"; mkChatMessage "Agent" "Error: Connection error."].
Proof.
  exact (proj1 (failed_turn_records_error idle_chat "slice it" [SigToken "Slic"]
                  "Connection error." eq_refl eq_refl eq_refl)).
Defined.

(** X10: when the stream raises after the items [pre], the worker emits the
    signals of [pre] and then [error] with the exception's text: it reads
    nothing after the exception and skips the snapshot fallback. *)
Theorem stream_exception_ends_run :
  forall (cancel_at : option nat) (pre post : list StreamItem) (e : string)
         (tasks : list (list pyval)) (sigs : list WorkerSignal) (st : dict) (h : bool),
    worker_loop cancel_at 0 pre initial_state false = (sigs, Ok (st, h)) ->
    stop_requested cancel_at (length pre) = false ->
    worker_run cancel_at (pre ++ StreamError e :: post) tasks = sigs ++ [SigError e].
Proof.
  intros cancel_at pre post e tasks sigs st h Hpre Hstop.
  unfold worker_run.
  rewrite (worker_loop_app cancel_at pre _ 0 initial_state false Hstop), Hpre.
  simpl. rewrite app_nil_r. reflexivity.
Qed.

Lemma stream_exception_ends_run_witness :
  worker_run None ([MessagesEvent (ChunkMsg "Slic" []) "agent"] ++
                   StreamError "Connection error." ::
                   [MessagesEvent (ChunkMsg "ing" []) "agent"]) [[slice_request]]
  = [SigToken "Slic"] ++ [SigError "Connection error."].
Proof.
  exact (stream_exception_ends_run None [MessagesEvent (ChunkMsg "Slic" []) "agent"]
           [MessagesEvent (ChunkMsg "ing" []) "agent"] "Connection error." [[slice_request]]
           [SigToken "Slic"] initial_state false eq_refl eq_refl).
Defined.

(** X11: when no interrupt was handled in the stream, the worker reads the
    graph's snapshot: with no pending interrupt in any task it finishes with
    the loop's state as is; with one, it asks for the first interrupt of the
    first task that has any, and finishes waiting for those fields. *)
Theorem snapshot_fallback_contract :
  forall (cancel_at : option nat) (items : list StreamItem) (sigs : list WorkerSignal)
         (st : dict),
    worker_loop cancel_at 0 items initial_state false = (sigs, Ok (st, false)) ->
    (forall n, worker_run cancel_at items (repeat [] n) = sigs ++ [SigFinished st]) /\
    (forall n v vs rest description fields,
       interrupt_payload v = Ok (description, fields) ->
       exists st',
         worker_run cancel_at items (repeat [] n ++ (v :: vs) :: rest)
         = sigs ++ [SigInputRequested description fields; SigFinished st'] /\
         dict_get st' "waiting_for_input" (PyBool false) = PyBool true /\
         dict_get st' "input_fields" (PyList []) = fields).
Proof.
  intros cancel_at items sigs st Hl. unfold worker_run. rewrite Hl. split.
  - intros n. induction n as [|n IH]; [reflexivity|].
    simpl. exact IH.
  - intros n v vs rest d f Hv.
    assert (Hs : snapshot_fallback (repeat [] n ++ (v :: vs) :: rest) st
                 = snapshot_fallback ((v :: vs) :: rest) st).
    { induction n as [|n IH]; [reflexivity|]. simpl. exact IH. }
    rewrite Hs. simpl. rewrite Hv. eexists. split; [reflexivity|split].
    + rewrite dict_get_set_other by discriminate. apply dict_get_set_same.
    + apply dict_get_set_same.
Qed.

Lemma snapshot_fallback_contract_witness :
  worker_run None [MessagesEvent (ChunkMsg "Applying" []) "agent"] (repeat [] 2)
  = [SigToken "Applying"] ++ [SigFinished initial_state].
Proof.
  exact (proj1 (snapshot_fallback_contract None [MessagesEvent (ChunkMsg "Applying" []) "agent"]
                  [SigToken "Applying"] initial_state eq_refl) 2).
Defined.

(** An [("updates", event)] item none of whose top-level keys is [k]. *)
Definition updates_lack_key (k : string) (items : list StreamItem) : bool :=
  forallb (fun it => match it with
                     | UpdatesEvent ev => forallb (fun kv => negb (String.eqb (fst kv) k)) ev
                     | _ => true
                     end) items.

Lemma dict_get_update_lack (ev : dict) (k : string) (dflt : pyval) :
  forall d,
    forallb (fun kv => negb (String.eqb (fst kv) k)) ev = true ->
    dict_get (dict_update d ev) k dflt = dict_get d k dflt.
Proof.
  induction ev as [|[k' v] ev IH]; intros d H; [reflexivity|].
  simpl in H. apply andb_prop in H as [Hk H].
  unfold dict_update. simpl. fold (dict_update (dict_set d k' v) ev).
  rewrite IH by exact H. apply dict_get_set_other.
  intros ->. rewrite String.eqb_refl in Hk. discriminate.
Qed.

Lemma handle_updates_lack (ev st : dict) (h : bool) (dflt : pyval) :
  forallb (fun kv => negb (String.eqb (fst kv) "blocked")) ev = true ->
  dict_get st "blocked" dflt = dflt ->
  forall sigs st' h', handle_updates ev st h = (sigs, Ok (st', h')) ->
  dict_get st' "blocked" dflt = dflt.
Proof.
  intros Hev Hst sigs st' h' E. unfold handle_updates in E.
  destruct (truthy (dict_get ev "__interrupt__" PyNone)).
  - destruct (first_item (dict_get ev "__interrupt__" PyNone)) as [obj|e]; [|discriminate].
    destruct (interrupt_payload obj) as [[d f]|e]; [|discriminate].
    injection E as _ <- _.
    rewrite dict_get_update_lack by exact Hev.
    rewrite !dict_get_set_other by discriminate. exact Hst.
  - injection E as _ <- _. rewrite dict_get_update_lack by exact Hev. exact Hst.
Qed.

Lemma worker_loop_lack (cancel_at : option nat) (items : list StreamItem) (dflt : pyval) :
  forall i st h,
    updates_lack_key "blocked" items = true ->
    dict_get st "blocked" dflt = dflt ->
    forall sigs st' h', worker_loop cancel_at i items st h = (sigs, Ok (st', h')) ->
    dict_get st' "blocked" dflt = dflt.
Proof.
  induction items as [|item items IH]; intros i st h Hl Hst sigs st' h' E.
  - injection E as _ <- _. exact Hst.
  - simpl in Hl. apply andb_prop in Hl as [Hi Hl].
    simpl in E. destruct item as [ev|m node|e]; [| |discriminate];
      (destruct (stop_requested cancel_at i); [injection E as _ <- _; exact Hst|]).
    + destruct (handle_updates ev st h) as [s1 [[st1 h1]|e]] eqn:Eh; [|discriminate].
      pose proof (handle_updates_lack ev st h dflt Hi Hst s1 st1 h1 Eh) as H1.
      destruct (worker_loop cancel_at (S i) items st1 h1) as [s2 r2] eqn:El.
      injection E as _ ->. exact (IH (S i) st1 h1 Hl H1 s2 st' h' El).
    + destruct (worker_loop cancel_at (S i) items st h) as [s2 r2] eqn:El.
      injection E as _ ->. exact (IH (S i) st h Hl Hst s2 st' h' El).
Qed.

Lemma snapshot_fallback_lack (tasks : list (list pyval)) (dflt : pyval) :
  forall st sigs st',
    dict_get st "blocked" dflt = dflt ->
    snapshot_fallback tasks st = (sigs, Ok st') ->
    dict_get st' "blocked" dflt = dflt.
Proof.
  induction tasks as [|[|v vs] tasks IH]; intros st sigs st' Hst E.
  - injection E as _ <-. exact Hst.
  - exact (IH st sigs st' Hst E).
  - simpl in E. destruct (interrupt_payload v) as [[d f]|e]; [|discriminate].
    injection E as _ <-. rewrite !dict_get_set_other by discriminate. exact Hst.
Qed.

(** X12: the worker's own state never gains a [blocked] entry except by
    copying the top-level keys of an [("updates", event)] item: if no such
    event has a top-level [blocked] key, the state [finished] carries has
    none, and [_on_streaming_finished] reads [blocked] as [False]. *)
Theorem finished_state_blocked_only_from_updates :
  forall (cancel_at : option nat) (items : list StreamItem) (tasks : list (list pyval))
         (pre : list WorkerSignal) (st : dict),
    updates_lack_key "blocked" items = true ->
    worker_run cancel_at items tasks = pre ++ [SigFinished st] ->
    dict_get st "blocked" (PyBool false) = PyBool false.
Proof.
  intros cancel_at items tasks pre st Hl E. unfold worker_run in E.
  destruct (worker_loop cancel_at 0 items initial_state false) as [sigs [[st1 h]|e]] eqn:El.
  - pose proof (worker_loop_lack cancel_at items (PyBool false) 0 initial_state false Hl
                  eq_refl sigs st1 h El) as H1.
    destruct h.
    + apply app_inj_tail in E as [_ E]. injection E as <-. exact H1.
    + destruct (snapshot_fallback tasks st1) as [sigs2 [st2|e]] eqn:Es;
        rewrite app_assoc in E; apply app_inj_tail in E as [_ E]; [|discriminate].
      injection E as <-. exact (snapshot_fallback_lack tasks (PyBool false) st1 sigs2 st2 H1 Es).
  - apply app_inj_tail in E as [_ E]. discriminate.
Qed.

(** The update event of a guardrail node that blocked, keyed by node name as
    a stream in [updates] mode reports it. *)
Definition guardrail_blocked_update : StreamItem :=
  UpdatesEvent [("guardrail", PyDict [("blocked", PyBool true);
                                      ("messages", PyList [PyMsg (AIMessage "off-topic" [])])])].

Lemma finished_state_blocked_only_from_updates_witness :
  dict_get (dict_update initial_state
              [("guardrail", PyDict [("blocked", PyBool true);
                                     ("messages", PyList [PyMsg (AIMessage "off-topic" [])])])])
    "blocked" (PyBool false) = PyBool false.
Proof.
  exact (finished_state_blocked_only_from_updates None [guardrail_blocked_update] []
           [] _ eq_refl eq_refl).
Defined.

(** ** Streamed text *)

(** The text a [("messages", ...)] item contributes to the response, as read
    off [handle_message]. *)
Definition visible_text (it : StreamItem) : string :=
  match it with
  | MessagesEvent (ChunkMsg content _) node =>
      if String.eqb node "guardrail" then "" else content
  | MessagesEvent (FullMsg (AIMessage content _)) _ => content
  | _ => ""
  end.

Definition messages_only (items : list StreamItem) : bool :=
  forallb (fun it => match it with MessagesEvent _ _ => true | _ => false end) items.

Lemma tokens_text_app (a b : list WorkerSignal) :
  tokens_text (a ++ b) = (tokens_text a ++ tokens_text b)%string.
Proof.
  induction a as [|s a IH]; [reflexivity|].
  destruct s; simpl; rewrite ?IH; try reflexivity.
  symmetry; apply string_append_assoc.
Qed.

Lemma tokens_text_token_if_nonempty (content : string) :
  tokens_text (token_if_nonempty content) = content.
Proof.
  unfold token_if_nonempty.
  destruct (String.eqb_spec content "") as [->|_]; [reflexivity|].
  simpl. apply string_append_nil_r.
Qed.

Lemma tokens_text_handle_message (m : StreamMessage) (node : string) :
  tokens_text (handle_message m node) = visible_text (MessagesEvent m node).
Proof.
  destruct m as [content tccs|[c|c tcs|c|n c]]; simpl.
  - destruct (String.eqb node "guardrail"); [reflexivity|].
    rewrite tokens_text_app, tokens_text_token_if_nonempty.
    induction tccs as [|[nm|] tccs IH]; simpl; [reflexivity| |exact IH].
    rewrite tokens_text_app. destruct (String.eqb nm ""); exact IH.
  - reflexivity.
  - rewrite tokens_text_app, tokens_text_token_if_nonempty.
    induction tcs as [|tc tcs IH]; simpl; [reflexivity|exact IH].
  - reflexivity.
  - reflexivity.
Qed.

(** X13: a stream made only of [("messages", ...)] items never fails and
    leaves the worker's state as it was; its tokens add up to the contents
    of the AI chunks not produced by the guardrail node followed by the
    contents of the whole AI messages, in stream order.  Tool results add
    tool activity, not text. *)
Theorem message_stream_text :
  forall (items : list StreamItem) (i : nat) (st : dict) (h : bool),
    messages_only items = true ->
    snd (worker_loop None i items st h) = Ok (st, h) /\
    tokens_text (fst (worker_loop None i items st h))
    = fold_right String.append "" (map visible_text items).
Proof.
  induction items as [|item items IH]; intros i st h Hm; [auto|].
  simpl in Hm. destruct item as [ev|m node|e]; try discriminate.
  simpl. specialize (IH (S i) st h Hm).
  destruct (worker_loop None (S i) items st h) as [s2 r2]. simpl in *.
  destruct IH as [IH1 IH2]. split; [exact IH1|].
  rewrite tokens_text_app, IH2, tokens_text_handle_message. reflexivity.
Qed.

Lemma message_stream_text_witness :
  tokens_text (fst (worker_loop None 0
     [MessagesEvent (ChunkMsg "ALLOWED" []) "guardrail";
      MessagesEvent (ChunkMsg "Applying " [Some "apply_slice_filter"]) "agent";
      MessagesEvent (FullMsg (ToolMessage "apply_slice_filter" "ok")) "tools";
      MessagesEvent (ChunkMsg "done" []) "agent"] initial_state false))
  = "Applying done".
Proof.
  exact (proj2 (message_stream_text
     [MessagesEvent (ChunkMsg "ALLOWED" []) "guardrail";
      MessagesEvent (ChunkMsg "Applying " [Some "apply_slice_filter"]) "agent";
      MessagesEvent (FullMsg (ToolMessage "apply_slice_filter" "ok")) "tools";
      MessagesEvent (ChunkMsg "done" []) "agent"] 0 initial_state false eq_refl)).
Defined.

(** The [streaming_token] signals [_on_token_received] emits for the tokens
    [ts] when the response so far is [acc]. *)
Fixpoint streamed_prefixes (acc : string) (ts : list string) : list UiSignal :=
  match ts with
  | [] => []
  | t :: ts' => UiStreamingToken (acc ++ t) :: streamed_prefixes (acc ++ t) ts'
  end.

(** X14: each [streaming_token] signal carries the whole response so far,
    not the new token: delivering tokens [t1 .. tn] emits the texts
    [r ++ t1], [r ++ t1 ++ t2], ..., where [r] is the response before them,
    and leaves [r ++ t1 ++ .. ++ tn] as the response. *)
Theorem streaming_tokens_are_cumulative :
  forall (ts : list string) (c : ChatViewModel),
    cv_emitted (deliver_all (map SigToken ts) c)
    = cv_emitted c ++ streamed_prefixes (cv_current_response c) ts /\
    cv_current_response (deliver_all (map SigToken ts) c)
    = (cv_current_response c ++ fold_right String.append "" ts)%string.
Proof.
  induction ts as [|t ts IH]; intros c; simpl.
  - rewrite app_nil_r, string_append_nil_r. auto.
  - destruct (IH (on_token_received t c)) as [E R]. rewrite E, R. simpl.
    rewrite <- app_assoc, string_append_assoc. auto.
Qed.

(** ** Conversation reset and stop *)

(** X15: [start_new_conversation] empties the history and emits
    [conversation_cleared], but leaves a running worker and the partial
    response alone: when that worker later finishes unblocked with some
    text, the text becomes the first message of the new conversation. *)
Theorem new_conversation_keeps_running_turn :
  forall (c : ChatViewModel) (st : dict),
    cv_current_response c <> "" ->
    truthy (dict_get st "blocked" (PyBool false)) = false ->
    let c' := start_new_conversation c in
    cv_messages c' = [] /\
    cv_worker c' = cv_worker c /\
    cv_emitted c' = cv_emitted c ++ [UiConversationCleared] /\
    cv_messages (deliver (SigFinished st) c')
    = [mkChatMessage "Agent" (cv_current_response c)].
Proof.
  intros c st Hr Hbl c'.
  destruct (on_streaming_finished_fields st c') as [M _].
  subst c'. simpl. rewrite M. simpl. rewrite Hbl.
  destruct (String.eqb_spec (cv_current_response c) "") as [E|_]; [contradiction|].
  repeat split; reflexivity.
Qed.

Lemma new_conversation_keeps_running_turn_witness :
  cv_messages (deliver (SigFinished initial_state)
                 (start_new_conversation
                    (deliver_all [SigToken "Applying"] (send_user_message "slice it" idle_chat))))
  = [mkChatMessage "Agent" "Applying"].
Proof.
  exact (proj2 (proj2 (proj2 (new_conversation_keeps_running_turn
           (deliver_all [SigToken "Applying"] (send_user_message "slice it" idle_chat))
           initial_state ltac:(discriminate) eq_refl)))).
Defined.

Lemma deliver_all_stopped_id (w : Worker) (sigs : list WorkerSignal) :
  forall c, deliver_all_stopped w sigs c = c.
Proof.
  induction sigs as [|s sigs IH]; intros c; simpl; [reflexivity|].
  rewrite IH. destruct s; reflexivity.
Qed.

(** X16: [stop_generation] parks the stopped worker in
    [_stopping_workers], and nothing takes it out again:
    [finalize_cleanup] receives the state dict of [finished] in place of
    the worker, finds no such entry and leaves the list unchanged, whatever
    the stopped worker still emits. *)
Theorem stopped_worker_never_released :
  forall (c : ChatViewModel) (w : Worker) (sigs : list WorkerSignal),
    cv_worker c = Some w ->
    let stopped := mkWorker (w_id w) (w_input w) true in
    let c1 := stop_generation c in
    cv_stopping_workers c1 = cv_stopping_workers c ++ [stopped] /\
    cv_stopping_workers (deliver_all_stopped stopped sigs c1) = cv_stopping_workers c1 /\
    In stopped (cv_stopping_workers (deliver_all_stopped stopped sigs c1)).
Proof.
  intros c w sigs Hw stopped c1.
  assert (Hs : cv_stopping_workers c1 = cv_stopping_workers c ++ [stopped]).
  { subst c1. unfold stop_generation. rewrite Hw.
    destruct (String.eqb (cv_current_response c) ""); reflexivity. }
  rewrite deliver_all_stopped_id.
  split; [exact Hs|]. split; [reflexivity|].
  rewrite Hs. apply in_or_app. right. left. reflexivity.
Qed.

Lemma stopped_worker_never_released_witness :
  cv_stopping_workers
    (deliver_all_stopped (mkWorker 0 (InputMessages []) true) [SigFinished initial_state]
       (stop_generation (start_worker (InputMessages []) idle_chat)))
  = [mkWorker 0 (InputMessages []) true].
Proof.
  exact (proj1 (proj2 (stopped_worker_never_released
           (start_worker (InputMessages []) idle_chat) (mkWorker 0 (InputMessages []) false)
           [SigFinished initial_state] eq_refl))).
Defined.

(** ** The interaction tool and the worker *)

(** X17: the payload [request_user_input] suspends with is read back by the
    worker unchanged: when the graph stream reports it as the first
    interrupt, the worker asks the UI for the tool's description and the
    dumped fields, each a dict with the keys [name], [label], [type],
    [default], [options], [min], [max] and [step], and finishes with
    [waiting_for_input] set and those fields. *)
Theorem request_user_input_round_trip :
  forall (py_str : pyval -> string) (description : string) (fields : list InputField)
         (payload : pyval) (objs : list pyval) (tasks : list (list pyval)),
    request_user_input py_str description fields None = Suspended payload ->
    interrupt_payload (PyInterrupt payload)
    = Ok (PyStr description, PyList (map input_field_dump fields)) /\
    Forall (fun v => exists d, v = PyDict d /\
              map fst d = ["name"; "label"; "type"; "default"; "options"; "min"; "max"; "step"])
      (map input_field_dump fields) /\
    exists st,
      worker_run None [interrupt_update (PyInterrupt payload :: objs)] tasks
      = [SigInputRequested (PyStr description) (PyList (map input_field_dump fields));
         SigFinished st] /\
      dict_get st "waiting_for_input" (PyBool false) = PyBool true /\
      dict_get st "input_fields" (PyList []) = PyList (map input_field_dump fields).
Proof.
  intros py_str description fields payload objs tasks E.
  simpl in E. injection E as <-.
  assert (Hp : interrupt_payload
                 (PyInterrupt (PyDict [("description", PyStr description);
                                       ("fields", PyList (map input_field_dump fields))]))
               = Ok (PyStr description, PyList (map input_field_dump fields))) by reflexivity.
  split; [exact Hp|]. split.
  - apply Forall_forall. intros v Hv. apply in_map_iff in Hv as [f [<- _]].
    eexists. split; reflexivity.
  - exact (worker_run_interrupt None [] _ objs tasks [] initial_state false _ _
             eq_refl eq_refl Hp).
Qed.

Lemma request_user_input_round_trip_witness :
  interrupt_payload
    (PyInterrupt (PyDict [("description", PyStr SLICE_DESCRIPTION);
                          ("fields", PyList (map input_field_dump slice_fields))]))
  = Ok (PyStr SLICE_DESCRIPTION, PyList (map input_field_dump slice_fields)).
Proof.
  exact (proj1 (request_user_input_round_trip (fun _ => "") SLICE_DESCRIPTION slice_fields _
                  [] [] eq_refl)).
Defined.

(** X18: an interrupt whose value has no [.get] (it is not a dict) does not
    reach the UI as an input request: the worker emits the signals of the
    items before it and then [error] with the [AttributeError] text. *)
Theorem malformed_interrupt_is_error :
  forall (cancel_at : option nat) (pre : list StreamItem) (obj : pyval) (objs : list pyval)
         (tasks : list (list pyval)) (sigs : list WorkerSignal) (st : dict) (h : bool)
         (e : string),
    worker_loop cancel_at 0 pre initial_state false = (sigs, Ok (st, h)) ->
    stop_requested cancel_at (length pre) = false ->
    interrupt_payload obj = Raise e ->
    worker_run cancel_at (pre ++ [interrupt_update (obj :: objs)]) tasks = sigs ++ [SigError e].
Proof.
  intros cancel_at pre obj objs tasks sigs st h e Hpre Hstop Hobj. unfold worker_run.
  rewrite (worker_loop_app cancel_at pre _ 0 initial_state false Hstop), Hpre.
  simpl. rewrite Hstop. unfold handle_updates. simpl. rewrite Hobj. simpl.
  rewrite app_nil_r. reflexivity.
Qed.

Lemma malformed_interrupt_is_error_witness :
  worker_run None ([] ++ [interrupt_update [PyInterrupt (PyStr "Need the normal.")]]) []
  = [] ++ [SigError "'str' object has no attribute 'get'"].
Proof.
  exact (malformed_interrupt_is_error None [] (PyInterrupt (PyStr "Need the normal.")) [] []
           [] initial_state false _ eq_refl eq_refl eq_refl).
Defined.
